(** * Verification of python-yr: location lookup and forecast caching

    Shallow embedding of [yr/location_to_coordinates.py] (archive cache,
    table scan, coordinate parsing, shelve memoisation) and of the cache
    and fetch logic of [yr/utils.py] ([Cache], [Connect.read]).

    Python strings are [String.string] (8-bit characters); times are
    integers counting microseconds since the epoch; Python floats obtained
    from decimal text are modelled by the exact rational they denote. *)

From Stdlib Require Import String Ascii ZArith QArith.
From stdpp Require Import base gmap strings list.

Open Scope Z_scope.

(** Let [simpl] compute string concatenation (stdpp blocks it). *)
#[local] Arguments String.append : simpl nomatch.

(* ================================================================= *)
(** ** Python exceptions *)

(** The messages of [APIError] raised by [location_to_coordinates.py];
    every raise site of the module has its own message. *)
Inductive api_reason :=
| BadStatus          (* "Invalid responce from %s, expected status 200" *)
| NoCountryFile      (* "Unable to find %s in %s" (no <country>.csv) *)
| NotFound           (* "Unable to find %s in %s.%s" (no matching row) *)
| MultipleMatches    (* "Multiple matches for %s in %s.%s" *)
| BadCoordinate.     (* "Expected lat/lon/altitude string matching %s" *)

Inductive exn :=
| APIError (r : api_reason)
| YrException        (* utils.YrException; its __init__ never returns *)
| HTTPError (code : Z)
| URLError
| OSError
| FileNotFoundError
| IndexError
| KeyError
| TypeError
| AttributeError
| ValueError
| BadZipFile
| UnicodeDecodeError
| PermissionError
| IsADirectoryError
| RuntimeError.      (* bare [raise] with no active exception *)

Inductive result (A : Type) :=
| Ok (a : A)
| Err (e : exn).
Arguments Ok {A} a.
Arguments Err {A} e.

(* ================================================================= *)
(** ** The environment: file system, network, clock, shelf *)

(** Contents of a file, or body of an HTTP response: a zip archive (its
    member names with the rows [csv.reader] yields for them) or text. *)
Inductive blob :=
| Archive (members : list (string * list (list string)))
| Text (s : string).

Record file := mkFile { f_mtime : Z; f_data : blob }.

(** How [open(path, 'w')] followed by [f.write(...)] behaves on a path. *)
Inductive fault := NoFault | OpenFails | WriteFails.

Inductive http_reply :=
| Reply (status : Z) (body : blob)
| Unreachable.

Record coord := mkCoord { lat : Q; lon : Q; altitude : Q }.

(** Observable effects: HTTP requests and archive scans. *)
Inductive event :=
| EvHttpGet (url : string)
| EvZipOpen (path : string).

Record world := mkWorld {
  w_fs : gmap string file;
  w_fault : string -> fault;
  (* what [open(path, 'r')] raises on an existing entry: [PermissionError]
     without read permission, [IsADirectoryError] for a directory *)
  w_read_fault : string -> option exn;
  (* what [os.remove(path)] raises on an existing entry: [PermissionError]
     for another user's file in the sticky [/tmp], or in a directory
     without write permission *)
  w_remove_fault : string -> option exn;
  w_net : string -> http_reply;
  w_clock : Z;                (* time.time(), microseconds, UTC *)
  w_utcoffset : Z -> Z;       (* local UTC offset (s) at a UTC instant (s) *)
  w_shelf : gmap string coord;  (* yr_location_to_coordinates.shelve *)
  w_trace : list event
}.

Definition set_fs (w : world) (fs : gmap string file) : world :=
  mkWorld fs (w_fault w) (w_read_fault w) (w_remove_fault w) (w_net w) (w_clock w) (w_utcoffset w) (w_shelf w) (w_trace w).
Definition set_shelf (w : world) (sh : gmap string coord) : world :=
  mkWorld (w_fs w) (w_fault w) (w_read_fault w) (w_remove_fault w) (w_net w) (w_clock w) (w_utcoffset w) sh (w_trace w).
Definition emit (w : world) (ev : event) : world :=
  mkWorld (w_fs w) (w_fault w) (w_read_fault w) (w_remove_fault w) (w_net w) (w_clock w) (w_utcoffset w) (w_shelf w)
    (w_trace w ++ [ev]).

(* ================================================================= *)
(** ** A state and exception monad for Python statements *)

Definition PY (A : Type) : Type := world -> result A * world.

Definition py_ret {A} (a : A) : PY A := fun w => (Ok a, w).
Definition py_raise {A} (e : exn) : PY A := fun w => (Err e, w).
Definition py_bind {A B} (m : PY A) (k : A -> PY B) : PY B := fun w =>
  match m w with
  | (Ok a, w') => k a w'
  | (Err e, w') => (Err e, w')
  end.
(** [try: m / except Exception as e: h e]. *)
Definition py_try {A} (m : PY A) (h : exn -> PY A) : PY A := fun w =>
  match m w with
  | (Ok a, w') => (Ok a, w')
  | (Err e, w') => h e w'
  end.

Notation "x <- m ;; k" := (py_bind m (fun x => k))
  (at level 92, m at next level, right associativity).
Notation "m ;;; k" := (py_bind m (fun _ => k))
  (at level 92, right associativity).

(* ================================================================= *)
(** ** Library calls *)

Definition os_path_exists (path : string) : PY bool := fun w =>
  (Ok (bool_decide (is_Some (w_fs w !! path))), w).

Definition os_path_getmtime (path : string) : PY Z := fun w =>
  match w_fs w !! path with
  | Some f => (Ok (f_mtime f), w)
  | None => (Err FileNotFoundError, w)
  end.

Definition time_time : PY Z := fun w => (Ok (w_clock w), w).

Definition os_remove (path : string) : PY unit := fun w =>
  match w_fs w !! path with
  | Some _ =>
      match w_remove_fault w path with
      | Some e => (Err e, w)
      | None => (Ok tt, set_fs w (delete path (w_fs w)))
      end
  | None => (Err FileNotFoundError, w)
  end.

(** [with open(path, mode) as f: f.write(data)]: opening for writing
    creates or truncates the file, so a failing write leaves an empty one. *)
Definition open_write (path : string) (data : blob) : PY unit := fun w =>
  match w_fault w path with
  | NoFault => (Ok tt, set_fs w (<[path := mkFile (w_clock w) data]> (w_fs w)))
  | OpenFails => (Err OSError, w)
  | WriteFails =>
      (Err OSError, set_fs w (<[path := mkFile (w_clock w) (Text "")]> (w_fs w)))
  end.

Definition read_file (path : string) : PY blob := fun w =>
  match w_fs w !! path with
  | Some f =>
      match w_read_fault w path with
      | Some e => (Err e, w)
      | None => (Ok (f_data f), w)
      end
  | None => (Err FileNotFoundError, w)
  end.

(** [f.read()] on a file opened in text mode with [newline=None] (the
    default): universal newlines, so ['\r\n'] and a lone ['\r'] are read
    as ['\n']. *)
Fixpoint universal_newlines (s : string) : string :=
  match s with
  | EmptyString => EmptyString
  | String c s' =>
      if Ascii.eqb c "013"%char then
        String "010"%char
          (match s' with
           | String d s'' => if Ascii.eqb d "010"%char then universal_newlines s''
                             else universal_newlines s'
           | EmptyString => EmptyString
           end)
      else String c (universal_newlines s')
  end.

(** [urllib.request.urlopen(Request(url, headers=agent))]: the default
    opener raises [HTTPError] for a status outside 200..299. *)
Definition urlopen (url : string) : PY (Z * blob) := fun w =>
  let w' := emit w (EvHttpGet url) in
  match w_net w url with
  | Unreachable => (Err URLError, w')
  | Reply st body =>
      if bool_decide (200 <= st < 300) then (Ok (st, body), w')
      else (Err (HTTPError st), w')
  end.

(* ================================================================= *)
(** ** location_to_coordinates.get_zip_cached *)

Definition Qltb (x y : Q) : bool := negb (Qle_bool y x).

(** [file_age]: [(now - fileChanged)/(60*60*24)], in days. *)
Definition file_age (filename : string) : PY Q :=
  fileChanged <- os_path_getmtime filename ;;
  now <- time_time ;;
  py_ret (Qred (inject_Z (now - fileChanged) / inject_Z (60*60*24*1000000))).

Definition get_zip_cached (url cache_filename : string) (old_age_days : Q)
  : PY string :=
  ex <- os_path_exists cache_filename ;;
  hit <- (if ex then
            age <- file_age cache_filename ;;
            py_ret (Qltb age old_age_days)
          else py_ret false) ;;
  if hit then py_ret cache_filename else
  resp <- urlopen url ;;
  let '(status, body) := resp in
  if negb (Z.eqb status 200) then py_raise (APIError BadStatus) else
  py_try (open_write cache_filename body)
         (fun _ => py_try (os_remove cache_filename) (fun _ => py_ret tt)) ;;;
  py_ret cache_filename.

(* ================================================================= *)
(** ** String operations used by the resolver *)

Definition res_bind {A B} (m : result A) (k : A -> result B) : result B :=
  match m with Ok a => k a | Err e => Err e end.
Notation "x <-? m ;; k" := (res_bind m (fun x => k))
  (at level 92, m at next level, right associativity).

Fixpoint str_map (f : ascii -> ascii) (s : string) : string :=
  match s with
  | EmptyString => EmptyString
  | String c s' => String (f c) (str_map f s')
  end.

(** [str.lower] on the characters U+0000..U+00FF. *)
Definition py_lower_char (c : ascii) : ascii :=
  let n := nat_of_ascii c in
  if (Nat.leb 65 n && Nat.leb n 90) || (Nat.leb 192 n && Nat.leb n 222 && negb (Nat.eqb n 215))
  then ascii_of_nat (n + 32) else c.

Definition py_lower (s : string) : string := str_map py_lower_char s.

(** [s.replace(" ", "_")]. *)
Definition replace_space (s : string) : string :=
  str_map (fun c => if Ascii.eqb c " "%char then "_"%char else c) s.

(** [s.split(sep)[0]]. *)
Fixpoint split_first (sep : ascii) (s : string) : string :=
  match s with
  | EmptyString => EmptyString
  | String c s' => if Ascii.eqb c sep then EmptyString else String c (split_first sep s')
  end.

(** [s.endswith(suf)]. *)
Definition str_endswith (suf s : string) : bool :=
  Nat.leb (String.length suf) (String.length s) &&
  String.eqb (String.substring (String.length s - String.length suf)
                               (String.length suf) s) suf.

Fixpoint strip_prefix (p s : string) : option string :=
  match p with
  | EmptyString => Some s
  | String c p' =>
      match s with
      | String d s' => if Ascii.eqb c d then strip_prefix p' s' else None
      | EmptyString => None
      end
  end.

Fixpoint str_take (n : nat) (s : string) : string :=
  match n, s with
  | S n', String c s' => String c (str_take n' s')
  | _, _ => EmptyString
  end.

Fixpoint str_drop (n : nat) (s : string) : string :=
  match n, s with
  | S n', String _ s' => str_drop n' s'
  | _, _ => s
  end.

Fixpoint span_len (p : ascii -> bool) (s : string) : nat :=
  match s with
  | String c s' => if p c then S (span_len p s') else O
  | EmptyString => O
  end.

(* ================================================================= *)
(** ** [re.match] for patterns made of literals and groups [([cls]+)]

    A backtracking matcher in the manner of Python's [re]: a greedy group
    first tries the longest run of class characters and then shorter ones.
    [re.match] anchors at the start only; the result is the list of the
    captured groups. *)

Inductive re_item :=
| RLit (l : string)
| RGroupPlus (cls : ascii -> bool).

(** A greedy group: try the run lengths [n], [n-1], ..., [1] of the
    class prefix of [s], matching the rest of the pattern with [rest]. *)
Fixpoint re_group_try (rest : string -> option (list string)) (s : string) (n : nat)
  : option (list string) :=
  match n with
  | O => None
  | S k =>
      match rest (str_drop (S k) s) with
      | Some gs => Some (str_take (S k) s :: gs)
      | None => re_group_try rest s k
      end
  end.

Fixpoint re_match (ps : list re_item) (s : string) : option (list string) :=
  match ps with
  | [] => Some []
  | RLit l :: ps' =>
      match strip_prefix l s with
      | Some r => re_match ps' r
      | None => None
      end
  | RGroupPlus cls :: ps' => re_group_try (re_match ps') s (span_len cls s)
  end.

(** [\d] and [.] (on the 8-bit characters of the model). *)
Definition is_digit (c : ascii) : bool :=
  Nat.leb 48 (nat_of_ascii c) && Nat.leb (nat_of_ascii c) 57.
Definition is_digit_or_dot (c : ascii) : bool := is_digit c || Ascii.eqb c "."%char.

(** ['lat=([\d.]+)&lon=([\d.]+)&altitude=([\d.]+)']. *)
Definition coord_pattern : list re_item :=
  [RLit "lat="; RGroupPlus is_digit_or_dot;
   RLit "&lon="; RGroupPlus is_digit_or_dot;
   RLit "&altitude="; RGroupPlus is_digit_or_dot].

(** [float(g)] for a string [g] of digits and dots (a group of the pattern):
    accepted when it has at most one dot and at least one digit; the value
    is the decimal number it denotes. *)
Fixpoint float_digits (s : string) (mant scale : Z) (dot dig : bool) : result Q :=
  match s with
  | EmptyString =>
      if dig then Ok (inject_Z mant / inject_Z scale)%Q else Err ValueError
  | String c s' =>
      if Ascii.eqb c "."%char then
        (if dot then Err ValueError else float_digits s' mant scale true dig)
      else
        float_digits s' (mant * 10 + (Z.of_nat (nat_of_ascii c) - 48))
                     (if dot then scale * 10 else scale) dot true
  end.

Definition py_float (g : string) : result Q := float_digits g 0 1 false false.

(* ================================================================= *)
(** ** location_to_coordinates.parse_location_csv

    The table is given by the rows [csv.reader] yields for it. *)

(** The [for row in csvreader] loop: [Some row[1]] at the first row with
    [row[0] == location_name], [None] when the loop runs out. *)
Fixpoint find_row (rows : list (list string)) (location_name : string)
  : result (option string) :=
  match rows with
  | [] => Ok None
  | row :: rest =>
      match row with
      | [] => Err IndexError
      | c0 :: tl =>
          if String.eqb c0 location_name then
            match tl with
            | c1 :: _ => Ok (Some c1)
            | [] => Err IndexError
            end
          else find_row rest location_name
      end
  end.

Definition parse_location_csv (rows : list (list string)) (location_name : string)
  : result (option coord) :=
  found <-? find_row rows location_name ;;
  match found with
  | None => Ok None
  | Some lat_lon_str =>
      match re_match coord_pattern lat_lon_str with
      | Some [g1; g2; g3] =>
          la <-? py_float g1 ;;
          lo <-? py_float g2 ;;
          al <-? py_float g3 ;;
          Ok (Some (mkCoord la lo al))
      | _ => Err (APIError BadCoordinate)
      end
  end.

(* ================================================================= *)
(** ** location_to_coordinates.parse_zip_cached (the decorated function) *)

(** [z.open(name)] opens the last member stored under [name]. *)
Definition zip_member (members : list (string * list (list string))) (name : string)
  : list (list string) :=
  match List.find (fun m => String.eqb (fst m) name) (List.rev members) with
  | Some m => snd m
  | None => []
  end.

(** The [for name in matches] loop, collecting the non-[None] results. *)
Fixpoint scan_tables (members : list (string * list (list string)))
    (location_name : string) (names : list string) : result (list coord) :=
  match names with
  | [] => Ok []
  | name :: names' =>
      res <-? parse_location_csv (zip_member members name) location_name ;;
      results <-? scan_tables members location_name names' ;;
      Ok (match res with Some c => c :: results | None => results end)
  end.

(** Lines 151-181, once the archive is open, from the normalised name. *)
Definition search_normalized (members : list (string * list (list string)))
    (location_name : string) : result coord :=
  let country := split_first "/"%char location_name in
  let search_for := (country ++ ".csv")%string in
  let matches := List.filter (str_endswith search_for) (List.map fst members) in
  match matches with
  | [] => Err (APIError NoCountryFile)
  | _ =>
      results <-? scan_tables members location_name matches ;;
      match results with
      | [] => Err (APIError NotFound)
      | [result] => Ok result
      | _ => Err (APIError MultipleMatches)
      end
  end.

(** Lines 149-181, once the archive is open. *)
Definition search_archive (members : list (string * list (list string)))
    (location_name : string) : result coord :=
  let location_name := py_lower location_name in
  let location_name := replace_space location_name in
  search_normalized members location_name.

(** *** [str.lower] on arbitrary code points *)

(** The [string]s above hold characters U+0000..U+00FF. For a location
    name beyond them, [location_name.lower()] is CPython's [lower_ucs4]
    applied at each index: U+03A3 (capital sigma) goes through
    [handle_capital_sigma], every other code point through its full
    lowercase mapping. *)
Section Unicode.

(** [_PyUnicode_ToLowerFull], [_PyUnicode_IsCased] and
    [_PyUnicode_IsCaseIgnorable]: the Unicode database. *)
Variable to_lower_full : Z -> list Z.
Variable is_cased : Z -> bool.
Variable is_case_ignorable : Z -> bool.

(** The first code point that is not case-ignorable. *)
Fixpoint first_not_ignorable (l : list Z) : option Z :=
  match l with
  | [] => None
  | c :: l' => if is_case_ignorable c then first_not_ignorable l' else Some c
  end.

(** [handle_capital_sigma] for a sigma preceded by [before] (nearest code
    point first) and followed by [after]: final sigma (U+03C2) when a
    cased code point comes before it, skipping case-ignorable ones, and
    none comes after it. *)
Definition handle_capital_sigma (before after : list Z) : Z :=
  let final_sigma :=
    match first_not_ignorable before with Some c => is_cased c | None => false end in
  let final_sigma :=
    if final_sigma && negb (Nat.eqb (length after) 0) then
      match first_not_ignorable after with None => true | Some c => negb (is_cased c) end
    else final_sigma in
  if final_sigma then 962 else 963.

(** The loop of [do_lower] from the code point after [before]. *)
Fixpoint lower_from (before s : list Z) : list Z :=
  match s with
  | [] => []
  | c :: after =>
      (if Z.eqb c 931 then [handle_capital_sigma before after] else to_lower_full c)
        ++ lower_from (c :: before) after
  end.

(** [s.lower()]. *)
Definition py_str_lower (s : list Z) : list Z := lower_from [] s.

(** [location_name.lower().replace(" ", "_")]. *)
Definition normalize_u (p : list Z) : list Z :=
  List.map (fun c => if Z.eqb c 32 then 95 else c) (py_str_lower p).

End Unicode.

(** The UTF-8 encoding of a code point, as bytes. *)
Definition utf8_char (c : Z) : list Z :=
  if c <? 128 then [c]
  else if c <? 2048 then
    [Z.lor 192 (Z.shiftr c 6); Z.lor 128 (Z.land c 63)]
  else if c <? 65536 then
    [Z.lor 224 (Z.shiftr c 12); Z.lor 128 (Z.land (Z.shiftr c 6) 63);
     Z.lor 128 (Z.land c 63)]
  else
    [Z.lor 240 (Z.shiftr c 18); Z.lor 128 (Z.land (Z.shiftr c 12) 63);
     Z.lor 128 (Z.land (Z.shiftr c 6) 63); Z.lor 128 (Z.land c 63)].

Fixpoint bytes_str (b : list Z) : string :=
  match b with
  | [] => EmptyString
  | x :: b' => String (ascii_of_N (Z.to_N x)) (bytes_str b')
  end.

Fixpoint utf8_encode (s : list Z) : string :=
  match s with
  | [] => EmptyString
  | c :: s' => (bytes_str (utf8_char c) ++ utf8_encode s')%string
  end.

(** Lines 149-181 for a location name of arbitrary code points, with the
    archive's member names and table cells held as their UTF-8 bytes
    ([io.TextIOWrapper] decoding the tables as UTF-8). Equality,
    [split('/')] and [endswith] give the same answers on the code points
    and on their UTF-8 bytes, so the search runs on the bytes. *)
Definition search_archive_u (to_lower_full : Z -> list Z) (is_cased is_case_ignorable : Z -> bool)
    (members : list (string * list (list string))) (location_name : list Z) : result coord :=
  search_normalized members
    (utf8_encode (normalize_u to_lower_full is_cased is_case_ignorable location_name)).

(** [zipfile.ZipFile(zip_filename, 'r')]. *)
Definition zipfile_open (path : string)
  : PY (list (string * list (list string))) := fun w =>
  let w' := emit w (EvZipOpen path) in
  match w_fs w !! path with
  | Some f =>
      match w_read_fault w path with
      | Some e => (Err e, w')
      | None =>
          match f_data f with
          | Archive members => (Ok members, w')
          | Text _ => (Err BadZipFile, w')
          end
      end
  | None => (Err FileNotFoundError, w')
  end.

Definition parse_zip_cached_body (url cache_filename location_name : string) : PY coord :=
  zip_filename <- get_zip_cached url cache_filename 30%Q ;;
  members <- zipfile_open zip_filename ;;
  match search_archive members location_name with
  | Ok c => py_ret c
  | Err e => py_raise e
  end.

(* ================================================================= *)
(** ** shelve_cache *)

(** [repr] of a [str]. *)
Definition dquote : ascii := ascii_of_nat 34.
Definition backslash : ascii := ascii_of_nat 92.

Definition hex_digit (n : nat) : ascii :=
  match String.get n "0123456789abcdef" with Some c => c | None => "0"%char end.

Definition repr_char (q c : ascii) : string :=
  let n := nat_of_ascii c in
  if Ascii.eqb c q || Ascii.eqb c backslash then String backslash (String c EmptyString)
  else if Nat.eqb n 9 then String backslash "t"
  else if Nat.eqb n 10 then String backslash "n"
  else if Nat.eqb n 13 then String backslash "r"
  else if Nat.ltb n 32 || (Nat.leb 127 n && Nat.leb n 160) || Nat.eqb n 173 then
    String backslash (String "x"%char
      (String (hex_digit (n / 16)) (String (hex_digit (n mod 16)) EmptyString)))
  else String c EmptyString.

Fixpoint str_has (c : ascii) (s : string) : bool :=
  match s with
  | EmptyString => false
  | String d s' => Ascii.eqb c d || str_has c s'
  end.

Fixpoint str_concat_map (f : ascii -> string) (s : string) : string :=
  match s with
  | EmptyString => EmptyString
  | String c s' => (f c ++ str_concat_map f s')%string
  end.

Definition repr_str (s : string) : string :=
  let q := if str_has "'"%char s && negb (str_has dquote s) then dquote else "'"%char in
  String q (str_concat_map (repr_char q) s ++ String q EmptyString)%string.

Definition repr_args (args : list string) : string :=
  match args with
  | [] => "()"
  | [a] => ("(" ++ repr_str a ++ ",)")%string
  | _ => ("(" ++ String.concat ", " (List.map repr_str args) ++ ")")%string
  end.

Definition repr_kwargs (kwargs : list (string * string)) : string :=
  ("{" ++ String.concat ", "
          (List.map (fun kv => repr_str (fst kv) ++ ": " ++ repr_str (snd kv)) kwargs)
   ++ "}")%string.

(** [cache_key = repr(args) + repr(kwargs)]. *)
Definition cache_key (args : list string) (kwargs : list (string * string)) : string :=
  (repr_args args ++ repr_kwargs kwargs)%string.

(** Binding of the call [func( *args, **kwargs)] to the parameters
    [(url, cache_filename, location_name)]. *)
Definition param_names : list string := ["url"; "cache_filename"; "location_name"].

Fixpoint assign_kw (names : list string) (slots : list (option string)) (k v : string)
  : result (list (option string)) :=
  match names, slots with
  | n :: ns, s :: ss =>
      if String.eqb n k then
        match s with None => Ok (Some v :: ss) | Some _ => Err TypeError end
      else
        r <-? assign_kw ns ss k v ;; Ok (s :: r)
  | _, _ => Err TypeError
  end.

Fixpoint assign_kwargs (slots : list (option string)) (kwargs : list (string * string))
  : result (list (option string)) :=
  match kwargs with
  | [] => Ok slots
  | (k, v) :: kw' =>
      slots' <-? assign_kw param_names slots k v ;; assign_kwargs slots' kw'
  end.

Definition bind_params (args : list string) (kwargs : list (string * string))
  : result (string * string * string) :=
  if Nat.ltb 3 (length args) then Err TypeError else
  slots <-? assign_kwargs (List.map Some args ++ List.repeat None (3 - length args)) kwargs ;;
  match slots with
  | [Some a; Some b; Some c] => Ok (a, b, c)
  | _ => Err TypeError
  end.

Definition shelf_lookup (key : string) : PY (option coord) := fun w =>
  (Ok (w_shelf w !! key), w).

Definition shelf_store (key : string) (v : coord) : PY unit := fun w =>
  (Ok tt, set_shelf w (<[key := v]> (w_shelf w))).

Definition shelve_cache (func : string -> string -> string -> PY coord)
    (args : list string) (kwargs : list (string * string)) : PY coord :=
  let key := cache_key args kwargs in
  cached <- shelf_lookup key ;;
  match cached with
  | Some v => py_ret v
  | None =>
      ret <- (match bind_params args kwargs with
              | Ok (a, b, c) => func a b c
              | Err e => py_raise e
              end) ;;
      shelf_store key ret ;;;
      py_ret ret
  end.

(** [@shelve_cache def parse_zip_cached(url, cache_filename, location_name)]. *)
Definition parse_zip_cached : list string -> list (string * string) -> PY coord :=
  shelve_cache parse_zip_cached_body.

(* ================================================================= *)
(** ** utils.py: Cache and Connect *)

(** The value [xmltodict.parse] returns: nested dicts (attributes under
    ['@name'] keys), lists for repeated elements, text, or [None] for an
    empty element. *)
#[warnings="-register-all"]
Inductive xval :=
| XDict (kvs : list (string * xval))
| XList (xs : list xval)
| XText (s : string)
| XNone.

(** [d[key]] with a [str] key. *)
Definition xget (d : xval) (key : string) : result xval :=
  match d with
  | XDict kvs =>
      match List.find (fun kv => String.eqb (fst kv) key) kvs with
      | Some kv => Ok (snd kv)
      | None => Err KeyError
      end
  | _ => Err TypeError
  end.

(** The attributes of a location object that [Cache] and [Connect] read;
    [loc_is_api] is [isinstance(location, API_Locationforecast)]. *)
Record location := mkLocation {
  loc_name : string;
  loc_forecast_link : string;
  loc_url : string;
  loc_hash : string;
  loc_is_api : bool
}.

Definition tempdir : string := "/tmp".

(** [Cache.filename]: [os.path.join(directory, hash + '.xml')]. *)
Definition cache_filename (loc : location) : string :=
  (tempdir ++ "/" ++ loc_hash loc ++ ".xml")%string.

(** Naive local wall-clock time (microseconds) of a UTC instant
    (microseconds), as [datetime.fromtimestamp] and
    [astimezone(tz=None)] compute it. *)
Definition local_of_utc (w : world) (t : Z) : Z :=
  t + 1000000 * w_utcoffset w (t / 1000000).

Definition datetime_now : PY Z := fun w => (Ok (local_of_utc w (w_clock w)), w).

(** [datetime.datetime.fromtimestamp(t)] for whole seconds [t]. *)
Definition datetime_fromtimestamp (t : Z) : PY Z := fun w =>
  (Ok (local_of_utc w (t * 1000000)), w).

(** [s.replace(old, new)] for a one-character [old]. *)
Fixpoint replace_char (old : ascii) (new s : string) : string :=
  match s with
  | EmptyString => EmptyString
  | String c s' =>
      if Ascii.eqb c old then (new ++ replace_char old new s')%string
      else String c (replace_char old new s')
  end.

(** What [valid_until_timestamp_from_file] returns: a naive datetime, or
    the [False] of its [else: return False] branch. *)
Inductive valid_until := VDateTime (t : Z) | VFalse.

Definition lift {A} (r : result A) : PY A :=
  match r with Ok a => py_ret a | Err e => py_raise e end.

Section Cache.

(** [xmltodict.parse]; [None] when it raises [ExpatError]. *)
Variable xml_parse : string -> option xval.
(** [datetime.strptime(s, "%Y-%m-%dT%H:%M:%S %z")], as UTC seconds since
    the epoch; [None] when it raises [ValueError]. *)
Variable strptime_utc : string -> option Z.
(** [datetime.strptime(s, '%Y-%m-%dT%H:%M:%S')], as naive seconds. *)
Variable strptime_naive : string -> option Z.

Definition cache_load (loc : location) : PY string :=
  b <- read_file (cache_filename loc) ;;
  match b with
  | Text s => py_ret (universal_newlines s)
  | Archive _ => py_raise UnicodeDecodeError
  end.

(** [open(filename, 'w')] writes ['\n'] as [os.linesep], which is ['\n']
    on POSIX: the data is stored as it is. *)
Definition cache_dump (loc : location) (data : string) : PY unit :=
  open_write (cache_filename loc) (Text data).

Definition cache_exists (loc : location) : PY bool := os_path_exists (cache_filename loc).

(** [next_update.replace(...)] and [strptime] need a [str]. *)
Definition as_str (v : xval) (e : exn) : result string :=
  match v with XText s => Ok s | _ => Err e end.

Definition valid_until_timestamp_from_file (loc : location) : PY valid_until :=
  xmldata <- cache_load loc ;;
  match xml_parse xmldata with
  | None => t <- datetime_fromtimestamp 0 ;; py_ret (VDateTime t)
  | Some d =>
      meta <- lift (wd <-? xget d "weatherdata" ;; xget wd "meta") ;;
      if loc_is_api loc then
        let from_next_update (next_update : xval) : PY valid_until :=
          s <- lift (as_str next_update AttributeError) ;;
          let s := replace_char "Z"%char " +0000" s in
          match strptime_utc s with
          | Some t => fun w => (Ok (VDateTime (local_of_utc w (t * 1000000))), w)
          | None => py_raise ValueError
          end in
        model <- lift (xget meta "model") ;;
        match model with
        | XDict _ =>
            next_update <- lift (xget model "@nextrun") ;;
            from_next_update next_update
        | XList ms =>
            m0 <- (match ms with m0 :: _ => py_ret m0 | [] => py_raise IndexError end) ;;
            next_update <- lift (xget m0 "@nextrun") ;;
            from_next_update next_update
        | _ => py_ret VFalse
        end
      else
        next_update <- lift (xget meta "nextupdate") ;;
        s <- lift (as_str next_update TypeError) ;;
        match strptime_naive s with
        | Some t => py_ret (VDateTime (t * 1000000))
        | None => py_raise ValueError
        end
  end.

(** [datetime.now() <= valid_until]; comparing a datetime with [False]
    raises [TypeError]. *)
Definition is_fresh (loc : location) : PY bool :=
  now <- datetime_now ;;
  v <- valid_until_timestamp_from_file loc ;;
  match v with
  | VDateTime t => py_ret (Z.leb now t)
  | VFalse => py_raise TypeError
  end.

(** [YrException(e)]: [__init__] logs and runs a bare [raise], which
    re-raises the exception being handled, [e]. *)
Definition yr_exception {A} (e : exn) : PY A := py_raise e.

Definition decode_utf8 (b : blob) : result string :=
  match b with Text s => Ok s | Archive _ => Err UnicodeDecodeError end.

Definition connect_read (loc : location) : PY string :=
  py_try
    (ex <- cache_exists loc ;;
     stale <- (if negb ex then py_ret true
               else fresh <- is_fresh loc ;; py_ret (negb fresh)) ;;
     if stale then
       resp <- urlopen (loc_url loc) ;;
       let '(status, body) := resp in
       if negb (Z.eqb status 200) then py_raise RuntimeError  (* bare [raise] *)
       else
         weatherdata <- lift (decode_utf8 body) ;;
         cache_dump loc weatherdata ;;;
         py_ret weatherdata
     else cache_load loc)
    (fun e => yr_exception e).

End Cache.


(* ================================================================= *)
(** ** utils.Cache.remove *)

(** [if os.path.isfile(self.filename): os.remove(self.filename)]; the
    modelled file system holds regular files only. *)
Definition cache_remove (loc : location) : PY unit :=
  ex <- os_path_exists (cache_filename loc) ;;
  if ex then os_remove (cache_filename loc) else py_ret tt.

(* ================================================================= *)
(** ** utils.Language, API_Locationforecast and Location *)

(** [s.split(sep)]. *)
Fixpoint py_split (sep : ascii) (s : string) : list string :=
  match s with
  | EmptyString => [EmptyString]
  | String c s' =>
      if Ascii.eqb c sep then EmptyString :: py_split sep s'
      else match py_split sep s' with
           | w :: ws => String c w :: ws
           | [] => [String c EmptyString]
           end
  end.

(** [d[key]] on a dict of strings. *)
Definition dict_get (d : gmap string string) (key : string) : result string :=
  match d !! key with Some v => Ok v | None => Err KeyError end.

(** [os.path.join(a, b)] (posixpath): an absolute [b] discards [a]. *)
Definition path_join (a b : string) : string :=
  match b with
  | String "/"%char _ => b
  | _ => if String.eqb a EmptyString || str_endswith "/" a then (a ++ b)%string
         else (a ++ "/" ++ b)%string
  end.

Definition base_url : string := "https://api.met.no/weatherapi/locationforecast/2.0/classic?".

Definition forecast_links : list string := ["forecast"; "forecast_hour_by_hour"].

Section Locations.

(** [str(x)] of a float, as ['{lat}'.format(lat=x)] writes it. *)
Variable float_str : Q -> string.
(** [json.load] of a language file; [None] when it raises. *)
Variable json_load : string -> option (gmap string string).
(** [YrObject.script_directory]. *)
Variable script_directory : string.

(** [Language.filename]: [os.path.join(script_directory, 'languages',
    language_name + '.json')]. *)
Definition language_filename (language_name : string) : string :=
  path_join (path_join script_directory "languages") (language_name ++ ".json").

(** [Language.get_dictionary]; the handler [raise YrException(e)]
    re-raises [e]. [json.load(f)] parses [f.read()]; failing raises [JSONDecodeError], a
    [ValueError]. *)
Definition get_dictionary (filename : string) : PY (gmap string string) :=
  py_try
    (b <- read_file filename ;;
     s <- lift (decode_utf8 b) ;;
     match json_load (universal_newlines s) with
     | Some d => py_ret d
     | None => py_raise ValueError
     end)
    (fun e => yr_exception e).

(** [Language(language_name).dictionary]. *)
Definition Language (language_name : string) : PY (gmap string string) :=
  get_dictionary (language_filename language_name).

(** [API_Locationforecast.__init__(self, lat, lon)] on an object whose
    [forecast_link] attribute is [forecast_link]: the class attribute
    ['locationforecast'], or the instance attribute [Location] sets before
    it calls [super().__init__]. *)
Definition api_init (forecast_link : string) (lat lon : Q) : location :=
  let location_name := ("lat=" ++ float_str lat ++ ";lon=" ++ float_str lon)%string in
  mkLocation location_name forecast_link (base_url ++ location_name)
    (location_name ++ "." ++ forecast_link)%string true.

Definition API_Locationforecast (lat lon : Q) : location :=
  api_init "locationforecast" lat lon.

(** [Location(location_name, forecast_link, language)]: [language] is
    [Some] dictionary of a [Language] object, or [None] for a value that
    is not one (then [Language()] is loaded). *)
Definition Location (language : option (gmap string string))
    (location_name forecast_link : string) : PY location :=
  dictionary <- (match language with
                 | Some d => py_ret d
                 | None => Language "en"
                 end) ;;
  fl <- (if existsb (String.eqb forecast_link) forecast_links
         then lift (dict_get dictionary forecast_link)
         else py_ret "forecast") ;;
  zip_url <- lift (dict_get dictionary "location_zip_url") ;;
  let zip_cache := (tempdir ++ "/" ++ List.last (py_split "/"%char zip_url) EmptyString)%string in
  location <- parse_zip_cached [zip_url; zip_cache] [("location_name", location_name)] ;;
  py_ret (api_init fl (lat location) (lon location)).

End Locations.

(** The forecast link a [Location] keeps: [self.language.dictionary[forecast_link]]
    for a valid link, [default_forecast_link] otherwise. *)
Definition resolve_link (d : gmap string string) (f : string) : result string :=
  if existsb (String.eqb f) forecast_links then dict_get d f else Ok "forecast".

(* ================================================================= *)
(** * Properties *)

(** ** Unfolding lemmas for the monad *)

Lemma py_bind_ok {A B} (m : PY A) (k : A -> PY B) w a w' :
  m w = (Ok a, w') -> py_bind m k w = k a w'.
Proof. intros H. unfold py_bind. now rewrite H. Qed.

Lemma py_bind_err {A B} (m : PY A) (k : A -> PY B) w e w' :
  m w = (Err e, w') -> py_bind m k w = (Err e, w').
Proof. intros H. unfold py_bind. now rewrite H. Qed.

Lemma Qltb_true x y : (x < y)%Q -> Qltb x y = true.
Proof.
  intros H. unfold Qltb. destruct (Qle_bool y x) eqn:E; [|reflexivity].
  apply Qle_bool_iff in E. exfalso. apply (Qlt_not_le x y H E).
Qed.

Lemma Qltb_false x y : (y <= x)%Q -> Qltb x y = false.
Proof. intros H. unfold Qltb. apply Qle_bool_iff in H. now rewrite H. Qed.

(** ** get_zip_cached *)

(** The cache test of [get_zip_cached]: [None] when the test fails and
    the archive is downloaded. *)
Lemma get_zip_cached_miss w url cf old :
  (w_fs w !! cf = None \/
   exists age, is_Some (w_fs w !! cf) /\ file_age cf w = (Ok age, w) /\ (old <= age)%Q) ->
  get_zip_cached url cf old w =
  (resp <- urlopen url ;;
   let '(status, body) := resp in
   if negb (Z.eqb status 200) then py_raise (APIError BadStatus) else
   py_try (open_write cf body)
          (fun _ => py_try (os_remove cf) (fun _ => py_ret tt)) ;;;
   py_ret cf) w.
Proof.
  intros [Hn | (age & Hex & Hage & Hle)]; unfold get_zip_cached, py_bind at 1, os_path_exists.
  - rewrite Hn. reflexivity.
  - rewrite bool_decide_eq_true_2 by exact Hex.
    unfold py_bind at 1. rewrite (py_bind_ok _ _ _ _ _ Hage).
    unfold py_ret. rewrite (Qltb_false _ _ Hle). reflexivity.
Qed.

(** C1: when a file exists at [cache_filename] and its age in days is
    strictly below [old_age_days], [get_zip_cached] returns
    [cache_filename] and leaves the world unchanged: no HTTP request is
    issued and the cached file is untouched. *)
Theorem get_zip_cached_fresh_hit (w : world) (url cf : string) (old age : Q) :
  is_Some (w_fs w !! cf) ->
  file_age cf w = (Ok age, w) ->
  (age < old)%Q ->
  get_zip_cached url cf old w = (Ok cf, w).
Proof.
  intros Hex Hage Hlt. unfold get_zip_cached, py_bind at 1, os_path_exists.
  rewrite bool_decide_eq_true_2 by exact Hex.
  unfold py_bind at 1. rewrite (py_bind_ok _ _ _ _ _ Hage).
  unfold py_ret. rewrite (Qltb_true _ _ Hlt). reflexivity.
Qed.

Definition zip_path : string := "/tmp/English.csv.zip".
Definition zip_url : string := "https://www.yr.no/storage/lookup/English.csv.zip".

Definition prague_members : list (string * list (list string)) :=
  [("English/czech_republic.csv",
            [["czech_republic/brno/brno"; "lat=49.19522&lon=16.60796&altitude=237.0"];
             ["czech_republic/prague/prague"; "lat=50.08804&lon=14.42076&altitude=202.0"]])].

Definition prague_archive : blob := Archive prague_members.

(** A world one day after the archive was cached. *)
Definition w_cached : world :=
  mkWorld (<[zip_path := mkFile 0 prague_archive]> ∅) (fun _ => NoFault) (fun _ => None) (fun _ => None)
    (fun _ => Reply 200 prague_archive) (60*60*24*1000000) (fun _ => 0) ∅ [].

Lemma get_zip_cached_fresh_hit_witness :
  is_Some (w_fs w_cached !! zip_path) /\
  file_age zip_path w_cached = (Ok 1%Q, w_cached) /\
  (1 < 30)%Q /\
  get_zip_cached zip_url zip_path 30 w_cached = (Ok zip_path, w_cached).
Proof.
  split; [vm_compute; eauto|]. split; [vm_compute; reflexivity|].
  split; [vm_compute; reflexivity|].
  apply (get_zip_cached_fresh_hit w_cached zip_url zip_path 30 1%Q);
    [vm_compute; eauto | vm_compute; reflexivity | vm_compute; reflexivity].
Defined.






(** ** shelve_cache and parse_zip_cached *)

Lemma shelve_cache_memo (func : string -> string -> string -> PY coord)
    (args : list string) (kwargs : list (string * string)) (w w1 : world) (v : coord) :
  shelve_cache func args kwargs w = (Ok v, w1) ->
  w_shelf w1 !! cache_key args kwargs = Some v /\
  shelve_cache func args kwargs w1 = (Ok v, w1).
Proof.
  unfold shelve_cache, py_bind at 1, shelf_lookup.
  destruct (w_shelf w !! cache_key args kwargs) as [v'|] eqn:Ek.
  - intros H. injection H as <- <-. split; [exact Ek|].
    unfold py_bind, shelf_lookup. rewrite Ek. reflexivity.
  - unfold py_bind at 1.
    destruct (match bind_params args kwargs with
              | Ok (a, b, c) => func a b c
              | Err e => py_raise e
              end w) as [[r|e] w2] eqn:Ef; [|discriminate].
    unfold py_bind, shelf_store, py_ret. intros H. injection H as <- <-.
    simpl.
    assert (L : <[cache_key args kwargs:=r]> (w_shelf w2) !! cache_key args kwargs = Some r)
      by apply lookup_insert_eq.
    rewrite L. split; reflexivity.
Qed.

(** C3: a call of [parse_zip_cached] that returns a coordinate [v] leaves
    [v] in the shelf under [repr(args) + repr(kwargs)]; the same call
    again returns the identical [v] and leaves the world unchanged: no
    archive is opened and no HTTP request is made. *)
Theorem parse_zip_cached_memoized (args : list string) (kwargs : list (string * string))
    (w w1 : world) (v : coord) :
  parse_zip_cached args kwargs w = (Ok v, w1) ->
  w_shelf w1 !! cache_key args kwargs = Some v /\
  parse_zip_cached args kwargs w1 = (Ok v, w1).
Proof. apply shelve_cache_memo. Qed.

Definition prague : coord := mkCoord 50.08804 14.42076 202.0.

Lemma parse_zip_cached_memoized_witness :
  exists w1,
    parse_zip_cached [zip_url; zip_path] [("location_name", "Czech_Republic/Prague/Prague")]
      w_cached = (Ok prague, w1) /\
    w_shelf w1 !! cache_key [zip_url; zip_path] [("location_name", "Czech_Republic/Prague/Prague")]
      = Some prague /\
    parse_zip_cached [zip_url; zip_path] [("location_name", "Czech_Republic/Prague/Prague")]
      w1 = (Ok prague, w1).
Proof.
  set (r := parse_zip_cached [zip_url; zip_path]
              [("location_name", "Czech_Republic/Prague/Prague")] w_cached).
  assert (E : r = (Ok prague, snd r)) by (vm_compute; reflexivity).
  exists (snd r). split; [exact E|].
  exact (parse_zip_cached_memoized _ _ _ _ _ E).
Defined.

(** ** Normalisation of the location name *)

Definition space_or_underscore (c : ascii) : bool :=
  Ascii.eqb c " "%char || Ascii.eqb c "_"%char.

(** Two characters equal up to letter case, or both a space or an
    underscore. *)
Definition chars_equivb (c d : ascii) : bool :=
  Ascii.eqb (py_lower_char c) (py_lower_char d) ||
  (space_or_underscore c && space_or_underscore d).

Fixpoint paths_equivb (s t : string) : bool :=
  match s, t with
  | EmptyString, EmptyString => true
  | String c s', String d t' => chars_equivb c d && paths_equivb s' t'
  | _, _ => false
  end.

Definition norm_char (c : ascii) : ascii :=
  if Ascii.eqb (py_lower_char c) " "%char then "_"%char else py_lower_char c.

Lemma normalize_str_map (s : string) :
  replace_space (py_lower s) = str_map norm_char s.
Proof.
  unfold replace_space, py_lower.
  induction s as [|c s IH]; simpl; [reflexivity|]. now rewrite IH.
Qed.

Lemma chars_equivb_norm (c d : ascii) :
  chars_equivb c d = true -> norm_char c = norm_char d.
Proof.
  unfold chars_equivb, space_or_underscore, norm_char.
  intros [H | H]%orb_true_iff.
  - apply Ascii.eqb_eq in H. now rewrite H.
  - apply andb_true_iff in H as [Hc Hd].
    apply orb_true_iff in Hc as [Hc|Hc]; apply Ascii.eqb_eq in Hc;
    apply orb_true_iff in Hd as [Hd|Hd]; apply Ascii.eqb_eq in Hd; subst; reflexivity.
Qed.

Lemma paths_equivb_normalize (s t : string) :
  paths_equivb s t = true -> replace_space (py_lower s) = replace_space (py_lower t).
Proof.
  rewrite !normalize_str_map. revert t.
  induction s as [|c s IH]; intros [|d t]; simpl; try discriminate; [reflexivity|].
  intros [Hc Ht]%andb_true_iff. rewrite (chars_equivb_norm _ _ Hc). f_equal. now apply IH.
Qed.

Lemma search_archive_normalized (members : list (string * list (list string))) (p1 p2 : string) :
  replace_space (py_lower p1) = replace_space (py_lower p2) ->
  search_archive members p1 = search_archive members p2.
Proof. intros H. unfold search_archive. cbv zeta. now rewrite H. Qed.

(** Location paths of characters U+0000..U+00FF that differ only by
    letter case or by spaces against underscores resolve identically
    against the same world (same archive): the bodies of [parse_zip_cached]
    agree in result and effect, and the memoised calls agree when neither
    path has a shelf entry. *)
Theorem resolve_case_space_insensitive (w : world) (url cf p1 p2 : string) :
  paths_equivb p1 p2 = true ->
  parse_zip_cached_body url cf p1 w = parse_zip_cached_body url cf p2 w /\
  (w_shelf w !! cache_key [url; cf; p1] [] = None ->
   w_shelf w !! cache_key [url; cf; p2] [] = None ->
   fst (parse_zip_cached [url; cf; p1] [] w) = fst (parse_zip_cached [url; cf; p2] [] w)).
Proof.
  intros Heq.
  assert (Hb : parse_zip_cached_body url cf p1 w = parse_zip_cached_body url cf p2 w).
  { unfold parse_zip_cached_body, py_bind.
    destruct (get_zip_cached url cf 30 w) as [[z|e] w1]; [|reflexivity].
    destruct (zipfile_open z w1) as [[m|e] w2]; [|reflexivity].
    rewrite (search_archive_normalized _ _ _ (paths_equivb_normalize _ _ Heq)).
    reflexivity. }
  split; [exact Hb|]. intros H1 H2.
  unfold parse_zip_cached, shelve_cache, py_bind, shelf_lookup.
  rewrite H1, H2.
  assert (B1 : bind_params [url; cf; p1] [] = Ok (url, cf, p1)) by reflexivity.
  assert (B2 : bind_params [url; cf; p2] [] = Ok (url, cf, p2)) by reflexivity.
  rewrite B1, B2. cbn -[parse_zip_cached_body]. rewrite Hb.
  destruct (parse_zip_cached_body url cf p2 w) as [[r|e] w']; reflexivity.
Qed.

Lemma resolve_case_space_insensitive_witness :
  parse_zip_cached_body zip_url zip_path "Czech Republic/Prague/Prague" w_cached =
  parse_zip_cached_body zip_url zip_path "czech_republic/prague/PRAGUE" w_cached /\
  (w_shelf w_cached !! cache_key [zip_url; zip_path; "Czech Republic/Prague/Prague"] [] = None ->
   w_shelf w_cached !! cache_key [zip_url; zip_path; "czech_republic/prague/PRAGUE"] [] = None ->
   fst (parse_zip_cached [zip_url; zip_path; "Czech Republic/Prague/Prague"] [] w_cached) =
   fst (parse_zip_cached [zip_url; zip_path; "czech_republic/prague/PRAGUE"] [] w_cached)).
Proof. apply resolve_case_space_insensitive. vm_compute. reflexivity. Defined.

(** "hellas/" *)
Definition hellas : list Z := [104; 101; 108; 108; 97; 115; 47].

(** "hellas/ΟΔΟΣ" and "hellas/ΟΔΟσ": the same letters, the last one a
    capital sigma in the first path and a small sigma in the second. *)
Definition hellas_capital_sigma : list Z := hellas ++ [927; 916; 927; 931].
Definition hellas_small_sigma : list Z := hellas ++ [927; 916; 927; 963].

(** A table for Greece with the row "hellas/οδος" (final sigma). *)
Definition hellas_members : list (string * list (list string)) :=
  [("English/hellas.csv",
    [[utf8_encode (hellas ++ [959; 948; 959; 962]); "lat=38.0&lon=23.7&altitude=100"]])].

(** C7 fails for the code's [str.lower]: "hellas/ΟΔΟΣ" and "hellas/ΟΔΟσ"
    differ only by the case of one letter (each letter's full lowercase
    mapping is the same), yet [lower()] writes the capital sigma at the
    end of a word as the final sigma U+03C2, the small one stays U+03C3,
    and against an archive row "hellas/οδος" the first path resolves to a
    coordinate while the second is not found. The hypotheses are the
    Unicode database's values at the code points involved. *)
Theorem resolve_final_sigma (to_lower_full : Z -> list Z) (is_cased is_case_ignorable : Z -> bool) :
  Forall (fun c => to_lower_full c = [c]) [104; 101; 108; 97; 115; 47; 959; 948; 963] ->
  to_lower_full 927 = [959] -> to_lower_full 916 = [948] -> to_lower_full 931 = [963] ->
  is_cased 927 = true -> is_case_ignorable 927 = false ->
  List.concat (List.map to_lower_full hellas_capital_sigma) =
  List.concat (List.map to_lower_full hellas_small_sigma) /\
  py_str_lower to_lower_full is_cased is_case_ignorable hellas_capital_sigma
  = hellas ++ [959; 948; 959; 962] /\
  py_str_lower to_lower_full is_cased is_case_ignorable hellas_small_sigma
  = hellas ++ [959; 948; 959; 963] /\
  (exists c, search_archive_u to_lower_full is_cased is_case_ignorable hellas_members
               hellas_capital_sigma = Ok c) /\
  search_archive_u to_lower_full is_cased is_case_ignorable hellas_members hellas_small_sigma
  = Err (APIError NotFound).
Proof.
  intros Hid H1 H2 H3 Hc Hi. rewrite List.Forall_forall in Hid.
  assert (L1 : py_str_lower to_lower_full is_cased is_case_ignorable hellas_capital_sigma
               = hellas ++ [959; 948; 959; 962]).
  { unfold py_str_lower, hellas_capital_sigma, hellas. simpl.
    rewrite (Hid 104), (Hid 101), (Hid 108), (Hid 97), (Hid 115), (Hid 47), H1, H2
      by (simpl; tauto).
    unfold handle_capital_sigma. simpl. rewrite Hi, Hc. reflexivity. }
  assert (L2 : py_str_lower to_lower_full is_cased is_case_ignorable hellas_small_sigma
               = hellas ++ [959; 948; 959; 963]).
  { unfold py_str_lower, hellas_small_sigma, hellas. simpl.
    rewrite (Hid 104), (Hid 101), (Hid 108), (Hid 97), (Hid 115), (Hid 47), H1, H2, (Hid 963)
      by (simpl; tauto).
    reflexivity. }
  split; [|split; [exact L1|split; [exact L2|split]]].
  - unfold hellas_capital_sigma, hellas_small_sigma, hellas. simpl.
    rewrite (Hid 963), H3 by (simpl; tauto). reflexivity.
  - unfold search_archive_u, normalize_u. rewrite L1. vm_compute. eexists. reflexivity.
  - unfold search_archive_u, normalize_u. rewrite L2. vm_compute. reflexivity.
Qed.

(** Basic Latin and Greek letters, enough for the paths above. *)
Definition greek_lower (c : Z) : list Z :=
  if ((65 <=? c) && (c <=? 90)) || ((913 <=? c) && (c <=? 937) && negb (c =? 930))
  then [c + 32] else [c].

Definition greek_cased (c : Z) : bool :=
  ((65 <=? c) && (c <=? 90)) || ((97 <=? c) && (c <=? 122)) ||
  ((913 <=? c) && (c <=? 937)) || ((945 <=? c) && (c <=? 969)).

Definition greek_case_ignorable (c : Z) : bool := (c =? 39) || (c =? 46) || (c =? 58).

Lemma resolve_final_sigma_witness :
  List.concat (List.map greek_lower hellas_capital_sigma) =
  List.concat (List.map greek_lower hellas_small_sigma) /\
  py_str_lower greek_lower greek_cased greek_case_ignorable hellas_capital_sigma
  = hellas ++ [959; 948; 959; 962] /\
  py_str_lower greek_lower greek_cased greek_case_ignorable hellas_small_sigma
  = hellas ++ [959; 948; 959; 963] /\
  (exists c, search_archive_u greek_lower greek_cased greek_case_ignorable hellas_members
               hellas_capital_sigma = Ok c) /\
  search_archive_u greek_lower greek_cased greek_case_ignorable hellas_members hellas_small_sigma
  = Err (APIError NotFound).
Proof.
  apply resolve_final_sigma.
  - repeat constructor.
  - reflexivity.
  - reflexivity.
  - reflexivity.
  - reflexivity.
  - reflexivity.
Defined.

(** ** The coordinate pattern *)

Fixpoint str_all (p : ascii -> bool) (s : string) : bool :=
  match s with
  | EmptyString => true
  | String c s' => p c && str_all p s'
  end.

(** A captured [([\d.]+)] group. *)
Definition digit_group (g : string) : Prop :=
  g <> EmptyString /\ str_all is_digit_or_dot g = true.

Lemma str_append_assoc (a b c : string) : ((a ++ b) ++ c = a ++ (b ++ c))%string.
Proof. induction a as [|x a IH]; simpl; [reflexivity|]. now rewrite IH. Qed.

Lemma str_append_nil (a : string) : (a ++ EmptyString)%string = a.
Proof. induction a as [|x a IH]; simpl; [reflexivity|]. now rewrite IH. Qed.

Lemma strip_prefix_sound (p s r : string) :
  strip_prefix p s = Some r -> s = (p ++ r)%string.
Proof.
  revert s. induction p as [|c p IH]; intros [|d s]; simpl; try discriminate.
  - congruence.
  - congruence.
  - destruct (Ascii.eqb c d) eqn:E; [|discriminate].
    apply Ascii.eqb_eq in E. subst. intros H. f_equal. now apply IH.
Qed.

Lemma str_take_drop (n : nat) (s : string) : s = (str_take n s ++ str_drop n s)%string.
Proof.
  revert s. induction n as [|n IH]; intros [|c s]; simpl; try reflexivity.
  f_equal. apply IH.
Qed.

Lemma str_take_span (cls : ascii -> bool) (k : nat) (s : string) :
  (S k <= span_len cls s)%nat ->
  str_take (S k) s <> EmptyString /\ str_all cls (str_take (S k) s) = true.
Proof.
  intros H. split.
  - destruct s as [|c s]; simpl in *; [lia|discriminate].
  - revert s H. induction (S k) as [|m IH]; intros [|c s]; simpl; try reflexivity.
    destruct (cls c) eqn:Ec; simpl; [|lia].
    intros H. apply IH. lia.
Qed.

Lemma re_group_try_sound (rest : string -> option (list string)) (s : string) (n : nat)
    (gs : list string) :
  re_group_try rest s n = Some gs ->
  exists k gs', (S k <= n)%nat /\ gs = str_take (S k) s :: gs' /\
                rest (str_drop (S k) s) = Some gs'.
Proof.
  induction n as [|n IH]; cbn [re_group_try]; [discriminate|].
  destruct (rest (str_drop (S n) s)) as [gs'|] eqn:E.
  - intros H. injection H as <-. exists n, gs'. auto.
  - intros H. destruct (IH H) as (k & gs' & Hk & Hg & Hr). exists k, gs'. split; [lia|auto].
Qed.

Lemma group_digits (k : nat) (s : string) :
  (S k <= span_len is_digit_or_dot s)%nat -> digit_group (str_take (S k) s).
Proof. apply str_take_span. Qed.

(** What a successful [re.match] of the coordinate pattern tells. *)
Lemma coord_match_shape (s : string) (gs : list string) :
  re_match coord_pattern s = Some gs ->
  exists g1 g2 g3 rest,
    gs = [g1; g2; g3] /\
    s = ("lat=" ++ g1 ++ "&lon=" ++ g2 ++ "&altitude=" ++ g3 ++ rest)%string /\
    digit_group g1 /\ digit_group g2 /\ digit_group g3.
Proof.
  unfold coord_pattern. cbn [re_match].
  destruct (strip_prefix "lat=" s) as [s1|] eqn:E1; [|discriminate].
  apply strip_prefix_sound in E1.
  intros H. apply re_group_try_sound in H as (k1 & gs1 & Hk1 & -> & H).
  destruct (strip_prefix "&lon=" (str_drop (S k1) s1)) as [s2|] eqn:E2; [|discriminate].
  apply strip_prefix_sound in E2.
  apply re_group_try_sound in H as (k2 & gs2 & Hk2 & -> & H).
  destruct (strip_prefix "&altitude=" (str_drop (S k2) s2)) as [s3|] eqn:E3; [|discriminate].
  apply strip_prefix_sound in E3.
  apply re_group_try_sound in H as (k3 & gs3 & Hk3 & -> & H).
  injection H as <-.
  exists (str_take (S k1) s1), (str_take (S k2) s2), (str_take (S k3) s3), (str_drop (S k3) s3).
  split; [reflexivity|]. split.
  - rewrite E1. f_equal.
    rewrite (str_take_drop (S k1) s1) at 1. rewrite E2. f_equal.
    rewrite (str_take_drop (S k2) s2) at 1. rewrite E3.
    rewrite <- (str_take_drop (S k3) s3). reflexivity.
  - split; [|split]; apply group_digits; assumption.
Qed.

(** Splitting a string at its first ['&']. *)
Lemma amp_split (x y x' y' : string) :
  str_has "&"%char x = false -> str_has "&"%char x' = false ->
  (x ++ String "&"%char y)%string = (x' ++ String "&"%char y')%string ->
  x = x' /\ y = y'.
Proof.
  revert x'. induction x as [|c x IH]; intros [|c' x']; simpl.
  - intros _ _ H. injection H as ->. auto.
  - intros _ H2 H. injection H as <- _. discriminate.
  - intros H1 _ H. injection H as -> _. discriminate.
  - intros H1 H2 H. apply orb_false_iff in H1 as [_ H1]. apply orb_false_iff in H2 as [_ H2].
    injection H as <- H. destruct (IH x' H1 H2 H) as [-> ->]. auto.
Qed.

Lemma digit_group_no_amp (g : string) : digit_group g -> str_has "&"%char g = false.
Proof.
  intros [_ H]. induction g as [|c g IH]; cbn [str_has str_all] in *; [reflexivity|].
  apply andb_true_iff in H as [Hc Hg]. rewrite (IH Hg), orb_false_r.
  destruct (Ascii.eqb "&"%char c) eqn:E; [|reflexivity].
  apply Ascii.eqb_eq in E. subst. discriminate.
Qed.

Definition starts_with_minus (x : string) : bool :=
  match x with String c _ => Ascii.eqb c "-"%char | EmptyString => false end.

Lemma digit_group_not_minus (g rest : string) :
  digit_group g -> starts_with_minus (g ++ rest) = false.
Proof.
  intros [Hne Hall]. destruct g as [|c g]; [contradiction|]. cbn [str_all] in Hall. simpl.
  apply andb_true_iff in Hall as [Hc _].
  destruct (Ascii.eqb c "-"%char) eqn:E; [|reflexivity].
  apply Ascii.eqb_eq in E. subst. discriminate.
Qed.

(** A descriptor with a negative field never matches the pattern. *)
Lemma coord_pattern_rejects_minus (a b c : string) :
  str_has "&"%char a = false -> str_has "&"%char b = false ->
  starts_with_minus a || starts_with_minus b || starts_with_minus c = true ->
  re_match coord_pattern ("lat=" ++ a ++ "&lon=" ++ b ++ "&altitude=" ++ c)%string = None.
Proof.
  intros Ha Hb Hneg.
  destruct (re_match coord_pattern _) as [gs|] eqn:E; [|reflexivity]. exfalso.
  apply coord_match_shape in E as (g1 & g2 & g3 & rest & _ & Hs & D1 & D2 & D3).
  simpl in Hs. injection Hs as Hs.
  apply amp_split in Hs as [<- Hs]; [|exact Ha|exact (digit_group_no_amp _ D1)].
  injection Hs as Hs.
  apply amp_split in Hs as [<- Hs]; [|exact Hb|exact (digit_group_no_amp _ D2)].
  injection Hs as ->.
  rewrite (digit_group_not_minus _ _ D3) in Hneg.
  pose proof (digit_group_not_minus a EmptyString D1) as Ma.
  pose proof (digit_group_not_minus b EmptyString D2) as Mb.
  rewrite str_append_nil in Ma, Mb. rewrite Ma, Mb in Hneg. discriminate.
Qed.

(** ** parse_location_csv *)

(** Rows before the first match: each has a first column, not the name. *)
Definition rows_before (name : string) (pre : list (list string)) : Prop :=
  Forall (fun row => exists c0 tl, row = c0 :: tl /\ c0 <> name) pre.

Lemma find_row_first (pre post : list (list string)) (name col1 : string) (rest : list string) :
  rows_before name pre ->
  find_row (pre ++ (name :: col1 :: rest) :: post) name = Ok (Some col1).
Proof.
  induction 1 as [|row pre (c0 & tl & -> & Hne) _ IH]; simpl.
  - now rewrite String.eqb_refl.
  - apply String.eqb_neq in Hne. rewrite Hne. exact IH.
Qed.

Lemma parse_location_csv_first (pre post : list (list string)) (name col1 : string)
    (rest : list string) :
  rows_before name pre ->
  parse_location_csv (pre ++ (name :: col1 :: rest) :: post) name =
  match re_match coord_pattern col1 with
  | Some [g1; g2; g3] =>
      la <-? py_float g1 ;; lo <-? py_float g2 ;; al <-? py_float g3 ;;
      Ok (Some (mkCoord la lo al))
  | _ => Err (APIError BadCoordinate)
  end.
Proof. intros H. unfold parse_location_csv. now rewrite (find_row_first _ _ _ _ _ H). Qed.

(** C10: when the scan reaches a row whose first column is the location
    name and whose second column is [lat=a&lon=b&altitude=c] with a field
    starting with ['-'] (and [a], [b] free of ['&']), [parse_location_csv]
    raises the malformed-coordinate [APIError]: [[\d.]+] has no sign. *)
Theorem negative_coordinate_rejected (pre post : list (list string)) (name a b c : string)
    (rest : list string) :
  rows_before name pre ->
  str_has "&"%char a = false -> str_has "&"%char b = false ->
  starts_with_minus a || starts_with_minus b || starts_with_minus c = true ->
  parse_location_csv
    (pre ++ (name :: ("lat=" ++ a ++ "&lon=" ++ b ++ "&altitude=" ++ c)%string :: rest) :: post)
    name = Err (APIError BadCoordinate).
Proof.
  intros Hpre Ha Hb Hneg. rewrite (parse_location_csv_first _ _ _ _ _ Hpre).
  now rewrite (coord_pattern_rejects_minus _ _ _ Ha Hb Hneg).
Qed.

Lemma negative_coordinate_rejected_witness :
  parse_location_csv
    ([] ++ ("south_africa/western_cape/cape_town" ::
            ("lat=" ++ "-33.9" ++ "&lon=" ++ "18.4" ++ "&altitude=" ++ "5.0")%string :: []) :: [])
    "south_africa/western_cape/cape_town" = Err (APIError BadCoordinate).
Proof.
  apply negative_coordinate_rejected;
    [constructor | reflexivity | reflexivity | reflexivity].
Defined.

(** ** float() of a captured group *)

Fixpoint count_dots (s : string) : nat :=
  match s with
  | EmptyString => O
  | String c s' => (if Ascii.eqb c "."%char then 1 else 0) + count_dots s'
  end.

Fixpoint has_digit (s : string) : bool :=
  match s with
  | EmptyString => false
  | String c s' => is_digit c || has_digit s'
  end.

(** A string of digits and dots that [float()] accepts. *)
Definition decimal_okb (g : string) : bool := Nat.leb (count_dots g) 1 && has_digit g.

Lemma float_digits_cases (s : string) (mant scale : Z) (dot dig : bool) :
  str_all is_digit_or_dot s = true ->
  (Nat.leb (count_dots s + (if dot then 1 else 0)) 1 && (dig || has_digit s) = true ->
   exists q, float_digits s mant scale dot dig = Ok q) /\
  (Nat.leb (count_dots s + (if dot then 1 else 0)) 1 && (dig || has_digit s) = false ->
   float_digits s mant scale dot dig = Err ValueError).
Proof.
  revert mant scale dot dig.
  induction s as [|c s IH]; intros mant scale dot dig Hall.
  - cbn [float_digits count_dots has_digit]. rewrite orb_false_r.
    destruct dig; split; intros H; eauto.
    + destruct dot; discriminate.
    + rewrite andb_false_r in H. discriminate.
  - cbn [str_all] in Hall. apply andb_true_iff in Hall as [Hc Hall].
    cbn [float_digits count_dots has_digit].
    destruct (Ascii.eqb c "."%char) eqn:Ed.
    + apply Ascii.eqb_eq in Ed. subst c.
      assert (Hd : is_digit "."%char = false) by reflexivity. rewrite Hd. simpl orb.
      destruct dot.
      * split; intros H; [|reflexivity].
        exfalso. apply andb_true_iff in H as [H _]. apply Nat.leb_le in H. lia.
      * destruct (IH mant scale true dig Hall) as [IH1 IH2].
        replace (1 + count_dots s + 0)%nat with (count_dots s + 1)%nat by lia.
        split; assumption.
    + unfold is_digit_or_dot in Hc. rewrite Ed, orb_false_r in Hc. rewrite Hc.
      destruct (IH (mant * 10 + (Z.of_nat (nat_of_ascii c) - 48))
                   (if dot then scale * 10 else scale) dot true Hall) as [IH1 IH2].
      simpl orb in *. rewrite Nat.add_0_l, orb_true_r.
      split; intros H; [apply IH1 | apply IH2]; rewrite andb_true_r in *; exact H.
Qed.

Lemma py_float_cases (g : string) :
  str_all is_digit_or_dot g = true ->
  (decimal_okb g = true -> exists q, py_float g = Ok q) /\
  (decimal_okb g = false -> py_float g = Err ValueError).
Proof.
  intros H. unfold py_float, decimal_okb.
  destruct (float_digits_cases g 0 1 false false H) as [H1 H2].
  rewrite Nat.add_0_r in H1, H2. simpl orb in H1, H2. split; assumption.
Qed.

(** C9 (as the code does it): once the scan reaches the first row whose
    first column is the location name (earlier rows each having a first
    column) and that row has a second column [col1]: if [col1] does not
    match the pattern, the malformed-coordinate [APIError] is raised; if
    it matches, the three groups are converted with [float()], which gives
    [{lat, lon, altitude}] when every group has at most one dot and a
    digit, and raises [ValueError] otherwise. *)
Theorem parse_location_csv_coordinates (pre post : list (list string)) (name col1 : string)
    (rest : list string) :
  rows_before name pre ->
  (re_match coord_pattern col1 = None ->
   parse_location_csv (pre ++ (name :: col1 :: rest) :: post) name
   = Err (APIError BadCoordinate)) /\
  (forall gs, re_match coord_pattern col1 = Some gs ->
   exists g1 g2 g3, gs = [g1; g2; g3] /\
     (decimal_okb g1 && decimal_okb g2 && decimal_okb g3 = true ->
      exists la lo al,
        py_float g1 = Ok la /\ py_float g2 = Ok lo /\ py_float g3 = Ok al /\
        parse_location_csv (pre ++ (name :: col1 :: rest) :: post) name
        = Ok (Some (mkCoord la lo al))) /\
     (decimal_okb g1 && decimal_okb g2 && decimal_okb g3 = false ->
      parse_location_csv (pre ++ (name :: col1 :: rest) :: post) name = Err ValueError)).
Proof.
  intros Hpre. rewrite (parse_location_csv_first _ _ _ _ _ Hpre). split.
  - intros ->. reflexivity.
  - intros gs Hm. rewrite Hm.
    destruct (coord_match_shape _ _ Hm) as (g1 & g2 & g3 & r & -> & _ & [_ D1] & [_ D2] & [_ D3]).
    exists g1, g2, g3. split; [reflexivity|].
    destruct (py_float_cases g1 D1) as [A1 B1].
    destruct (py_float_cases g2 D2) as [A2 B2].
    destruct (py_float_cases g3 D3) as [A3 B3].
    split.
    + intros Hok. apply andb_true_iff in Hok as [Hok H3]. apply andb_true_iff in Hok as [H1 H2].
      destruct (A1 H1) as [la E1]. destruct (A2 H2) as [lo E2]. destruct (A3 H3) as [al E3].
      exists la, lo, al. rewrite E1, E2, E3. auto.
    + intros Hko. unfold res_bind.
      destruct (decimal_okb g1) eqn:H1; [|now rewrite (B1 eq_refl)].
      destruct (A1 eq_refl) as [la ->].
      destruct (decimal_okb g2) eqn:H2; [|now rewrite (B2 eq_refl)].
      destruct (A2 eq_refl) as [lo ->].
      destruct (decimal_okb g3) eqn:H3; [discriminate|now rewrite (B3 eq_refl)].
Qed.

Lemma parse_location_csv_coordinates_witness :
  (re_match coord_pattern "lat=1.2.3&lon=10.0&altitude=5" = None ->
   parse_location_csv ([] ++ ["norge/oslo/oslo"; "lat=1.2.3&lon=10.0&altitude=5"] :: [])
     "norge/oslo/oslo" = Err (APIError BadCoordinate)) /\
  (forall gs, re_match coord_pattern "lat=1.2.3&lon=10.0&altitude=5" = Some gs ->
   exists g1 g2 g3, gs = [g1; g2; g3] /\
     (decimal_okb g1 && decimal_okb g2 && decimal_okb g3 = true ->
      exists la lo al,
        py_float g1 = Ok la /\ py_float g2 = Ok lo /\ py_float g3 = Ok al /\
        parse_location_csv ([] ++ ["norge/oslo/oslo"; "lat=1.2.3&lon=10.0&altitude=5"] :: [])
          "norge/oslo/oslo" = Ok (Some (mkCoord la lo al))) /\
     (decimal_okb g1 && decimal_okb g2 && decimal_okb g3 = false ->
      parse_location_csv ([] ++ ["norge/oslo/oslo"; "lat=1.2.3&lon=10.0&altitude=5"] :: [])
        "norge/oslo/oslo" = Err ValueError)).
Proof. apply parse_location_csv_coordinates. constructor. Defined.

(** C9 fails as stated: a second column that matches the pattern need
    not yield floats. *)
Lemma parse_location_csv_float_error :
  re_match coord_pattern "lat=1.2.3&lon=10.0&altitude=5" = Some ["1.2.3"; "10.0"; "5"] /\
  parse_location_csv [["norge/oslo/oslo"; "lat=1.2.3&lon=10.0&altitude=5"]] "norge/oslo/oslo"
  = Err ValueError.
Proof. split; vm_compute; reflexivity. Qed.

(** ** search_archive: outcomes of the scan *)

(** The normalised location name and the candidate table files. *)
Definition normalize (p : string) : string := replace_space (py_lower p).

Definition candidates (members : list (string * list (list string))) (p : string)
  : list string :=
  List.filter (str_endswith (split_first "/"%char (normalize p) ++ ".csv")%string)
              (List.map fst members).

(** A table has a row whose first column is [name]. *)
Definition table_matches (rows : list (list string)) (name : string) : bool :=
  existsb (fun row => match row with c0 :: _ => String.eqb c0 name | [] => false end) rows.

Definition matching_tables (members : list (string * list (list string))) (p : string) : nat :=
  length (List.filter (fun n => table_matches (zip_member members n) (normalize p))
                      (candidates members p)).

Lemma find_row_none (rows : list (list string)) (name : string) :
  find_row rows name = Ok None -> table_matches rows name = false.
Proof.
  induction rows as [|[|c0 tl] rows IH]; simpl; try discriminate; [reflexivity|].
  destruct (String.eqb c0 name); [destruct tl; discriminate|]. exact IH.
Qed.

Lemma find_row_some (rows : list (list string)) (name s : string) :
  find_row rows name = Ok (Some s) -> table_matches rows name = true.
Proof.
  induction rows as [|[|c0 tl] rows IH]; simpl; try discriminate.
  destruct (String.eqb c0 name); [reflexivity|]. exact IH.
Qed.

Lemma parse_location_csv_none (rows : list (list string)) (name : string) :
  parse_location_csv rows name = Ok None -> table_matches rows name = false.
Proof.
  unfold parse_location_csv, res_bind.
  destruct (find_row rows name) as [[s|]|e] eqn:E; try discriminate.
  - intros H. exfalso.
    destruct (re_match coord_pattern s) as [[|g1 [|g2 [|g3 [|]]]]|]; try discriminate.
    destruct (py_float g1), (py_float g2), (py_float g3); discriminate.
  - intros _. now apply find_row_none.
Qed.

Lemma parse_location_csv_some (rows : list (list string)) (name : string) (c : coord) :
  parse_location_csv rows name = Ok (Some c) -> table_matches rows name = true.
Proof.
  unfold parse_location_csv, res_bind.
  destruct (find_row rows name) as [[s|]|e] eqn:E; try discriminate.
  intros _. now apply (find_row_some _ _ s).
Qed.

Lemma scan_tables_count (members : list (string * list (list string))) (name : string)
    (names : list string) :
  Forall (fun n => exists r, parse_location_csv (zip_member members n) name = Ok r) names ->
  exists results, scan_tables members name names = Ok results /\
    length results = length (List.filter (fun n => table_matches (zip_member members n) name) names).
Proof.
  induction 1 as [|n names ([c|] & Hr) _ (results & Hs & Hl)]; simpl.
  - exists []. auto.
  - rewrite Hr. simpl. rewrite Hs. simpl.
    rewrite (parse_location_csv_some _ _ _ Hr). simpl.
    exists (c :: results). split; [reflexivity|]. simpl. now rewrite Hl.
  - rewrite Hr. simpl. rewrite Hs. simpl.
    rewrite (parse_location_csv_none _ _ Hr).
    exists results. auto.
Qed.

Lemma scan_tables_err (members : list (string * list (list string))) (name : string)
    (ns1 ns2 : list string) (n : string) (e : exn) :
  Forall (fun n => exists r, parse_location_csv (zip_member members n) name = Ok r) ns1 ->
  parse_location_csv (zip_member members n) name = Err e ->
  scan_tables members name (ns1 ++ n :: ns2) = Err e.
Proof.
  intros Hok He. induction Hok as [|m ns1 (r & Hr) _ IH]; simpl.
  - rewrite He. reflexivity.
  - rewrite Hr. simpl. rewrite IH. reflexivity.
Qed.

Lemma find_row_stop (pre post : list (list string)) (name : string) (rest : list string) :
  rows_before name pre ->
  find_row (pre ++ (name :: rest) :: post) name =
  match rest with c1 :: _ => Ok (Some c1) | [] => Err IndexError end.
Proof.
  induction 1 as [|row pre (c0 & tl & -> & Hne) _ IH]; simpl.
  - now rewrite String.eqb_refl.
  - apply String.eqb_neq in Hne. rewrite Hne. exact IH.
Qed.

(** C8 (as the code does it), for the scan of an open archive: with no
    candidate table the not-found [APIError] ("Unable to find <country>.csv")
    is raised; when every candidate table is scanned without raising, the
    not-found [APIError] is raised exactly when no candidate table has a row
    whose first column is the normalised name, the multiple-matches
    [APIError] exactly when two or more have one, and a coordinate is
    returned when exactly one has; within a table the scan stops at the
    first matching row, so later rows are never read; and when the scan of
    a candidate table raises, the error of the first such table in archive
    order propagates, whatever the other tables hold, even when some of
    them match. *)
Theorem search_archive_outcomes (members : list (string * list (list string))) (p : string) :
  (candidates members p = [] -> search_archive members p = Err (APIError NoCountryFile)) /\
  (candidates members p <> [] ->
   Forall (fun n => exists r, parse_location_csv (zip_member members n) (normalize p) = Ok r)
          (candidates members p) ->
   (search_archive members p = Err (APIError NotFound) <-> matching_tables members p = 0%nat) /\
   (search_archive members p = Err (APIError MultipleMatches) <->
      (2 <= matching_tables members p)%nat) /\
   (matching_tables members p = 1%nat -> exists c, search_archive members p = Ok c)) /\
  (forall pre rest post, rows_before (normalize p) pre ->
   parse_location_csv (pre ++ (normalize p :: rest) :: post) (normalize p) =
   parse_location_csv (pre ++ [normalize p :: rest]) (normalize p)) /\
  (forall ns1 n ns2 e, candidates members p = ns1 ++ n :: ns2 ->
   Forall (fun n => exists r, parse_location_csv (zip_member members n) (normalize p) = Ok r)
          ns1 ->
   parse_location_csv (zip_member members n) (normalize p) = Err e ->
   search_archive members p = Err e).
Proof.
  assert (Hs : search_archive members p =
    match candidates members p with
    | [] => Err (APIError NoCountryFile)
    | _ =>
        results <-? scan_tables members (normalize p) (candidates members p) ;;
        match results with
        | [] => Err (APIError NotFound)
        | [result] => Ok result
        | _ => Err (APIError MultipleMatches)
        end
    end) by reflexivity.
  split; [|split; [|split]].
  - intros H. rewrite Hs, H. reflexivity.
  - intros Hne Hok. rewrite Hs.
    destruct (candidates members p) as [|n ns] eqn:Ec; [contradiction|].
    destruct (scan_tables_count _ _ _ Hok) as (results & Hscan & Hlen).
    unfold matching_tables. rewrite Ec, <- Hlen, Hscan. simpl.
    destruct results as [|c [|c' results]]; simpl;
      repeat split; intros; try discriminate; try lia; eauto.
  - intros pre rest post Hpre. unfold parse_location_csv.
    now rewrite !(find_row_stop _ _ _ _ Hpre).
  - intros ns1 n ns2 e Hc Hok He. rewrite Hs, Hc.
    rewrite (scan_tables_err _ _ _ ns2 _ _ Hok He).
    destruct (ns1 ++ n :: ns2) eqn:E; [destruct ns1; discriminate | reflexivity].
Qed.

(** Two candidate tables, both with a matching row, the second malformed. *)
Definition two_norge_tables : list (string * list (list string)) :=
  [("Norsk/a/norge.csv", [["norge/oslo/oslo"; "lat=59.91&lon=10.75&altitude=23"]]);
   ("Norsk/b/norge.csv", [["norge/oslo/oslo"; "breddegrad=59.91"]])].

(** C8 fails as stated: rows match in two candidate tables, yet the error
    is the malformed-coordinate one, not the multiple-matches one. *)
Lemma search_archive_matches_not_ambiguous :
  matching_tables two_norge_tables "Norge/Oslo/Oslo" = 2%nat /\
  search_archive two_norge_tables "Norge/Oslo/Oslo" = Err (APIError BadCoordinate).
Proof. split; vm_compute; reflexivity. Qed.

Lemma search_archive_outcomes_witness :
  (exists c, search_archive prague_members "Czech_Republic/Prague/Prague" = Ok c) /\
  search_archive two_norge_tables "Norge/Oslo/Oslo" = Err (APIError BadCoordinate).
Proof.
  split.
  - destruct (search_archive_outcomes prague_members "Czech_Republic/Prague/Prague")
      as [_ [H _]].
    apply H.
    + vm_compute. discriminate.
    + vm_compute. repeat constructor. eexists. reflexivity.
    + vm_compute. reflexivity.
  - destruct (search_archive_outcomes two_norge_tables "Norge/Oslo/Oslo")
      as [_ [_ [_ H]]].
    apply (H ["Norsk/a/norge.csv"] "Norsk/b/norge.csv" [] (APIError BadCoordinate)).
    + vm_compute. reflexivity.
    + repeat constructor. eexists. vm_compute. reflexivity.
    + vm_compute. reflexivity.
Defined.

(** ** Cache.is_fresh *)

Section Freshness.

Variable xml_parse : string -> option xval.
Variable strptime_utc : string -> option Z.
Variable strptime_naive : string -> option Z.

(** The two shapes of [meta['model']] the code reads [@nextrun] from. *)
Definition nextrun_shape (model : xval) (n : string) : Prop :=
  (exists kvs, model = XDict kvs /\ xget model "@nextrun" = Ok (XText n)) \/
  (exists m0 ms, model = XList (m0 :: ms) /\ xget m0 "@nextrun" = Ok (XText n)).

Lemma valid_until_api (loc : location) (w : world) (s : string) (d wd meta model : xval)
    (n : string) (T : Z) :
  loc_is_api loc = true ->
  cache_load loc w = (Ok s, w) ->
  xml_parse s = Some d ->
  xget d "weatherdata" = Ok wd -> xget wd "meta" = Ok meta ->
  xget meta "model" = Ok model -> nextrun_shape model n ->
  strptime_utc (replace_char "Z"%char " +0000" n) = Some T ->
  valid_until_timestamp_from_file xml_parse strptime_utc strptime_naive loc w =
  (Ok (VDateTime (local_of_utc w (T * 1000000))), w).
Proof.
  intros Hapi Hload Hparse Hwd Hmeta Hmodel Hshape Hstrp.
  unfold valid_until_timestamp_from_file.
  rewrite (py_bind_ok _ _ _ _ _ Hload), Hparse.
  unfold py_bind at 1, lift at 1, res_bind. rewrite Hwd, Hmeta. unfold py_ret at 1.
  rewrite Hapi. unfold py_bind at 1, lift at 1. rewrite Hmodel. unfold py_ret at 1.
  destruct Hshape as [(kvs & -> & Hn) | (m0 & ms & -> & Hn)];
    unfold py_bind, lift, py_ret, as_str; rewrite Hn; rewrite Hstrp; reflexivity.
Qed.

Lemma is_fresh_api (loc : location) (w : world) (s : string) (d wd meta model : xval)
    (n : string) (T : Z) :
  loc_is_api loc = true ->
  cache_load loc w = (Ok s, w) ->
  xml_parse s = Some d ->
  xget d "weatherdata" = Ok wd -> xget wd "meta" = Ok meta ->
  xget meta "model" = Ok model -> nextrun_shape model n ->
  strptime_utc (replace_char "Z"%char " +0000" n) = Some T ->
  is_fresh xml_parse strptime_utc strptime_naive loc w =
  (Ok (Z.leb (local_of_utc w (w_clock w)) (local_of_utc w (T * 1000000))), w).
Proof.
  intros. unfold is_fresh, py_bind at 1, datetime_now.
  erewrite py_bind_ok by (eapply valid_until_api; eassumption).
  reflexivity.
Qed.

(** C4 (as the code does it): for a cached payload whose [@nextrun]
    instant is [T], [is_fresh] returns true when [T] is exactly the current
    instant, and false when the local wall-clock time of [T] is strictly
    before the current local wall-clock time: the comparison is made
    between naive local times. *)
Theorem is_fresh_boundary (loc : location) (w : world) (s : string) (d wd meta model : xval)
    (n : string) (T : Z) :
  loc_is_api loc = true ->
  cache_load loc w = (Ok s, w) ->
  xml_parse s = Some d ->
  xget d "weatherdata" = Ok wd -> xget wd "meta" = Ok meta ->
  xget meta "model" = Ok model -> nextrun_shape model n ->
  strptime_utc (replace_char "Z"%char " +0000" n) = Some T ->
  (w_clock w = T * 1000000 ->
   is_fresh xml_parse strptime_utc strptime_naive loc w = (Ok true, w)) /\
  (local_of_utc w (T * 1000000) < local_of_utc w (w_clock w) ->
   is_fresh xml_parse strptime_utc strptime_naive loc w = (Ok false, w)).
Proof.
  intros Hapi Hload Hparse Hwd Hmeta Hmodel Hshape Hstrp.
  rewrite (is_fresh_api loc w s d wd meta model n T); try assumption.
  split.
  - intros ->. now rewrite Z.leb_refl.
  - intros Hlt. f_equal. f_equal. apply Z.leb_gt. exact Hlt.
Qed.

(** With a fixed UTC offset, an instant strictly before now is stale. *)
Lemma local_of_utc_mono (w : world) (t u : Z) :
  (forall x y, w_utcoffset w x = w_utcoffset w y) -> t < u ->
  local_of_utc w t < local_of_utc w u.
Proof.
  intros Hc Hlt. unfold local_of_utc. rewrite (Hc (t / 1000000) (u / 1000000)). lia.
Qed.

End Freshness.

(** A forecast cache for New York around the end of daylight saving time
    on 2026-11-01 (06:00 UTC: local time goes back from 02:00 to 01:00). *)
Definition ny_loc : location :=
  mkLocation "lat=40.71;lon=-74.01" "locationforecast"
    "https://api.met.no/weatherapi/locationforecast/2.0/classic?lat=40.71;lon=-74.01"
    "lat=40.71;lon=-74.01.locationforecast" true.

Definition ny_payload : string :=
  "<weatherdata><meta><model name='met_public_forecast' nextrun='2026-11-01T05:30:00Z'/></meta></weatherdata>".

Definition ny_parsed : xval :=
  XDict [("weatherdata",
          XDict [("meta",
                  XDict [("model",
                          XDict [("@name", XText "met_public_forecast");
                                 ("@nextrun", XText "2026-11-01T05:30:00Z")])])])].

Definition ny_xml_parse (s : string) : option xval :=
  if String.eqb s ny_payload then Some ny_parsed else None.

(** 2026-11-01T05:30:00Z is 1793511000 seconds after the epoch. *)
Definition ny_strptime (s : string) : option Z :=
  if String.eqb s "2026-11-01T05:30:00 +0000" then Some 1793511000 else None.

Definition ny_offset (t : Z) : Z := if t <? 1793512800 then -14400 else -18000.

Definition ny_world (clock : Z) : world :=
  mkWorld (<[cache_filename ny_loc := mkFile 0 (Text ny_payload)]> ∅) (fun _ => NoFault) (fun _ => None) (fun _ => None)
    (fun _ => Unreachable) clock ny_offset ∅ [].

Lemma is_fresh_boundary_witness :
  (w_clock (ny_world (1793511000 * 1000000)) = 1793511000 * 1000000 ->
   is_fresh ny_xml_parse ny_strptime ny_strptime ny_loc (ny_world (1793511000 * 1000000))
   = (Ok true, ny_world (1793511000 * 1000000))) /\
  (local_of_utc (ny_world (1793511000 * 1000000)) (1793511000 * 1000000) <
   local_of_utc (ny_world (1793511000 * 1000000)) (w_clock (ny_world (1793511000 * 1000000))) ->
   is_fresh ny_xml_parse ny_strptime ny_strptime ny_loc (ny_world (1793511000 * 1000000))
   = (Ok false, ny_world (1793511000 * 1000000))).
Proof.
  apply (is_fresh_boundary ny_xml_parse ny_strptime ny_strptime ny_loc
           (ny_world (1793511000 * 1000000)) ny_payload ny_parsed
           (XDict [("meta", XDict [("model", XDict [("@name", XText "met_public_forecast");
                                 ("@nextrun", XText "2026-11-01T05:30:00Z")])])])
           (XDict [("model", XDict [("@name", XText "met_public_forecast");
                                 ("@nextrun", XText "2026-11-01T05:30:00Z")])])
           (XDict [("@name", XText "met_public_forecast");
                   ("@nextrun", XText "2026-11-01T05:30:00Z")])
           "2026-11-01T05:30:00Z" 1793511000).
  all: try reflexivity.
  left. eexists. split; reflexivity.
Defined.

(** C4 fails as stated: at 06:10 UTC (01:10 local, standard time) a
    payload whose next run was 05:30 UTC (01:30 local, daylight time) is
    still fresh. *)
Lemma is_fresh_after_fall_back :
  1793511000 * 1000000 < w_clock (ny_world (1793513400 * 1000000)) /\
  is_fresh ny_xml_parse ny_strptime ny_strptime ny_loc (ny_world (1793513400 * 1000000))
  = (Ok true, ny_world (1793513400 * 1000000)).
Proof. split; [vm_compute; reflexivity | reflexivity]. Qed.

(** ** Unrecognised and unparseable payloads *)

Definition odd_payload : string :=
  "<weatherdata><meta><model>x</model></meta></weatherdata>".

Definition odd_xml_parse (s : string) : option xval :=
  if String.eqb s odd_payload then
    Some (XDict [("weatherdata", XDict [("meta", XDict [("model", XText "x")])])])
  else None.

Definition payload_world (payload : string) : world :=
  mkWorld (<[cache_filename ny_loc := mkFile 0 (Text payload)]> ∅) (fun _ => NoFault) (fun _ => None) (fun _ => None)
    (fun _ => Reply 200 (Text ny_payload)) (1793513400 * 1000000) ny_offset ∅ [].

(** No cache file; the forecast service answers with [status]. *)
Definition fetch_world (status : Z) : world :=
  mkWorld ∅ (fun _ => NoFault) (fun _ => None) (fun _ => None) (fun _ => Reply status (Text ""))
    (1793513400 * 1000000) ny_offset ∅ [].

(** C5: a payload that does not parse is stale ([fromtimestamp(0)]), but
    for a payload whose [meta['model']] is neither a dict nor a list,
    [valid_until_timestamp_from_file] returns [False] and [is_fresh]
    raises [TypeError] comparing it with a datetime; [Connect.read]
    propagates the error instead of fetching anew. *)
Theorem is_fresh_unrecognized_shape_raises :
  is_fresh odd_xml_parse ny_strptime ny_strptime ny_loc (payload_world "<weatherdata")
    = (Ok false, payload_world "<weatherdata") /\
  valid_until_timestamp_from_file odd_xml_parse ny_strptime ny_strptime ny_loc
    (payload_world odd_payload) = (Ok VFalse, payload_world odd_payload) /\
  is_fresh odd_xml_parse ny_strptime ny_strptime ny_loc (payload_world odd_payload)
    = (Err TypeError, payload_world odd_payload) /\
  connect_read odd_xml_parse ny_strptime ny_strptime ny_loc (payload_world odd_payload)
    = (Err TypeError, payload_world odd_payload).
Proof. repeat split; reflexivity. Qed.

(** ** Connect.read *)




(* ================================================================= *)
(** * Further properties of the code *)

(** ** The shelf is written by [shelve_cache] only *)

Definition keeps_shelf {A} (m : PY A) : Prop :=
  forall w r w', m w = (r, w') -> w_shelf w' = w_shelf w.

Lemma keeps_ret {A} (a : A) : keeps_shelf (py_ret a).
Proof. intros w r w' H. now injection H as _ <-. Qed.

Lemma keeps_raise {A} (e : exn) : keeps_shelf (@py_raise A e).
Proof. intros w r w' H. now injection H as _ <-. Qed.

Lemma keeps_lift {A} (r : result A) : keeps_shelf (lift r).
Proof. destruct r; [apply keeps_ret | apply keeps_raise]. Qed.

Lemma keeps_bind {A B} (m : PY A) (k : A -> PY B) :
  keeps_shelf m -> (forall a, keeps_shelf (k a)) -> keeps_shelf (py_bind m k).
Proof.
  intros Hm Hk w r w' H. unfold py_bind in H.
  destruct (m w) as [[a|e] w1] eqn:E.
  - rewrite (Hk a _ _ _ H). exact (Hm _ _ _ E).
  - injection H as _ <-. exact (Hm _ _ _ E).
Qed.

Lemma keeps_try {A} (m : PY A) (h : exn -> PY A) :
  keeps_shelf m -> (forall e, keeps_shelf (h e)) -> keeps_shelf (py_try m h).
Proof.
  intros Hm Hh w r w' H. unfold py_try in H.
  destruct (m w) as [[a|e] w1] eqn:E.
  - injection H as _ <-. exact (Hm _ _ _ E).
  - rewrite (Hh e _ _ _ H). exact (Hm _ _ _ E).
Qed.

Ltac keeps_prim :=
  intros ? ? ? H; repeat match type of H with
  | context [match ?x with _ => _ end] => destruct x
  end; injection H as _ <-; reflexivity.

Lemma keeps_os_path_exists p : keeps_shelf (os_path_exists p).
Proof. keeps_prim. Qed.
Lemma keeps_os_path_getmtime p : keeps_shelf (os_path_getmtime p).
Proof. unfold os_path_getmtime. keeps_prim. Qed.
Lemma keeps_time_time : keeps_shelf time_time.
Proof. keeps_prim. Qed.
Lemma keeps_os_remove p : keeps_shelf (os_remove p).
Proof. unfold os_remove. keeps_prim. Qed.
Lemma keeps_open_write p d : keeps_shelf (open_write p d).
Proof. unfold open_write. keeps_prim. Qed.
Lemma keeps_urlopen u : keeps_shelf (urlopen u).
Proof. unfold urlopen. keeps_prim. Qed.
Lemma keeps_zipfile_open p : keeps_shelf (zipfile_open p).
Proof. unfold zipfile_open. keeps_prim. Qed.

Create HintDb keeps.
#[local] Hint Resolve keeps_ret keeps_raise keeps_lift keeps_os_path_exists
  keeps_os_path_getmtime keeps_time_time keeps_os_remove keeps_open_write
  keeps_urlopen keeps_zipfile_open : keeps.

Ltac keeps :=
  repeat match goal with
  | |- keeps_shelf (py_bind _ _) => apply keeps_bind; [|intros ?]
  | |- keeps_shelf (py_try _ _) => apply keeps_try; [|intros ?]
  | |- keeps_shelf (let '(_, _) := ?p in _) => destruct p
  | |- keeps_shelf (if ?b then _ else _) => destruct b
  | |- keeps_shelf (match ?x with _ => _ end) => destruct x
  | |- keeps_shelf _ => solve [eauto with keeps]
  end.

Lemma keeps_parse_zip_cached_body url cf name :
  keeps_shelf (parse_zip_cached_body url cf name).
Proof.
  unfold parse_zip_cached_body, get_zip_cached, file_age. keeps.
Qed.

(** A call of [parse_zip_cached] that raises found no shelf entry for
    its key and stores none: the shelf is left as it was, so the next
    identical call runs the lookup again. *)
Theorem parse_zip_cached_error_not_stored (args : list string)
    (kwargs : list (string * string)) (w w' : world) (e : exn) :
  parse_zip_cached args kwargs w = (Err e, w') ->
  w_shelf w !! cache_key args kwargs = None /\ w_shelf w' = w_shelf w.
Proof.
  unfold parse_zip_cached, shelve_cache, py_bind at 1, shelf_lookup.
  destruct (w_shelf w !! cache_key args kwargs) as [v|] eqn:Ek.
  - unfold py_ret. discriminate.
  - intros H. split; [reflexivity|]. unfold py_bind in H.
    destruct (match bind_params args kwargs with
              | Ok (a, b, c) => parse_zip_cached_body a b c
              | Err e => py_raise e
              end w) as [[r|e'] w2] eqn:Ef.
    + discriminate.
    + injection H as _ <-.
      destruct (bind_params args kwargs) as [[[a b] c]|e''].
      * exact (keeps_parse_zip_cached_body a b c _ _ _ Ef).
      * exact (keeps_raise e'' _ _ _ Ef).
Qed.

(** ** get_zip_cached: downloads *)

(** When the archive is downloaded (no file at [cache_filename], or one
    at least [old_age_days] old) and the reply has status 200 with a
    writable path, the body is stored at [cache_filename] with the current
    time as its modification time and [cache_filename] is returned; the
    only other effect is the one HTTP request. *)
Theorem get_zip_cached_download (w : world) (url cf : string) (old : Q) (body : blob) :
  (w_fs w !! cf = None \/
   exists age, is_Some (w_fs w !! cf) /\ file_age cf w = (Ok age, w) /\ (old <= age)%Q) ->
  w_net w url = Reply 200 body ->
  w_fault w cf = NoFault ->
  exists w', get_zip_cached url cf old w = (Ok cf, w') /\
             w_fs w' = <[cf := mkFile (w_clock w) body]> (w_fs w) /\
             w_trace w' = w_trace w ++ [EvHttpGet url] /\
             w_shelf w' = w_shelf w.
Proof.
  intros Hmiss Hnet Hfault. rewrite (get_zip_cached_miss _ _ _ _ Hmiss).
  unfold py_bind at 1, urlopen. rewrite Hnet.
  rewrite bool_decide_eq_true_2 by lia. simpl.
  unfold py_bind, py_try, open_write, py_ret. simpl. rewrite Hfault.
  eexists. repeat split.
Qed.

(** When the archive is downloaded and the reply is not a 200 one, the
    call raises and the file system is left as it was (an old archive is
    kept): [urlopen] raises [URLError] for an unreachable host and
    [HTTPError] for a status outside 200..299, and the other statuses give
    the [APIError] of [get_zip_cached]. *)
Theorem get_zip_cached_download_fails (w : world) (url cf : string) (old : Q) :
  (w_fs w !! cf = None \/
   exists age, is_Some (w_fs w !! cf) /\ file_age cf w = (Ok age, w) /\ (old <= age)%Q) ->
  (forall body, w_net w url <> Reply 200 body) ->
  get_zip_cached url cf old w =
  (Err (match w_net w url with
        | Unreachable => URLError
        | Reply st _ => if bool_decide (200 <= st < 300) then APIError BadStatus
                        else HTTPError st
        end), emit w (EvHttpGet url)).
Proof.
  intros Hmiss Hnet. rewrite (get_zip_cached_miss _ _ _ _ Hmiss).
  unfold py_bind at 1, urlopen.
  destruct (w_net w url) as [st body|] eqn:En; [|reflexivity].
  destruct (bool_decide (200 <= st < 300)); [|reflexivity].
  simpl. destruct (Z.eqb_spec st 200) as [->|Hne]; [|reflexivity].
  exfalso. exact (Hnet body eq_refl).
Qed.

(** ** Cache.dump, Cache.load, Cache.exists, Cache.remove *)

Lemma universal_newlines_no_cr (s : string) :
  str_has "013"%char s = false -> universal_newlines s = s.
Proof.
  induction s as [|c s IH]; [reflexivity|].
  intros H. cbn [str_has] in H. apply orb_false_iff in H as [Hc Hs].
  rewrite Ascii.eqb_sym in Hc. cbn [universal_newlines]. rewrite Hc, (IH Hs). reflexivity.
Qed.

(** [dump] then [load] gives back the data written, read with universal
    newlines (['\r\n'] and ['\r'] come back as ['\n']), so data without
    ['\r'] comes back unchanged; the cache file then exists. *)
Theorem cache_dump_load (loc : location) (w : world) (data : string) :
  w_fault w (cache_filename loc) = NoFault ->
  w_read_fault w (cache_filename loc) = None ->
  exists w', cache_dump loc data w = (Ok tt, w') /\
             cache_load loc w' = (Ok (universal_newlines data), w') /\
             (str_has "013"%char data = false -> cache_load loc w' = (Ok data, w')) /\
             cache_exists loc w' = (Ok true, w').
Proof.
  intros Hf Hr. unfold cache_dump, open_write. rewrite Hf.
  eexists. split; [reflexivity|].
  assert (L : <[cache_filename loc := mkFile (w_clock w) (Text data)]> (w_fs w)
                !! cache_filename loc = Some (mkFile (w_clock w) (Text data)))
    by apply lookup_insert_eq.
  unfold cache_load, cache_exists, os_path_exists, py_bind, read_file. simpl.
  rewrite L, Hr. simpl. split; [reflexivity|]. split; [|reflexivity].
  intros Hcr. rewrite (universal_newlines_no_cr _ Hcr). reflexivity.
Qed.

(** Without a cache file [remove] does nothing and does not raise. With
    one, [os.remove] deletes it unless it raises (for instance
    [PermissionError]), and [remove] then raises that error and changes
    nothing. When it does not raise, only the cache file is gone and
    [exists] is false afterwards. *)
Theorem cache_remove_spec (loc : location) (w : world) :
  ((w_fs w !! cache_filename loc = None \/ w_remove_fault w (cache_filename loc) = None) ->
   exists w', cache_remove loc w = (Ok tt, w') /\
              w_fs w' = delete (cache_filename loc) (w_fs w) /\
              cache_exists loc w' = (Ok false, w')) /\
  (forall e, is_Some (w_fs w !! cache_filename loc) ->
   w_remove_fault w (cache_filename loc) = Some e ->
   cache_remove loc w = (Err e, w)).
Proof.
  unfold cache_remove, py_bind, os_path_exists, os_remove, py_ret. split.
  - intros Hc.
    destruct (w_fs w !! cache_filename loc) as [f|] eqn:E; simpl.
    + destruct Hc as [Hc|Hc]; [discriminate|]. rewrite E, Hc.
      eexists. split; [reflexivity|]. split; [reflexivity|].
      unfold cache_exists, os_path_exists. simpl. rewrite lookup_delete_eq. reflexivity.
    + eexists. split; [reflexivity|]. rewrite delete_id by exact E. split; [reflexivity|].
      unfold cache_exists, os_path_exists. rewrite E. reflexivity.
  - intros e [f Hf] He. rewrite Hf. simpl. rewrite Hf, He. reflexivity.
Qed.

(** ** Connect.read *)

(** With a readable cache file that [is_fresh] judges fresh, [read]
    returns the file's text as [load] reads it (universal newlines) and
    changes nothing: no request is made. *)
Theorem connect_read_fresh_hit (xml_parse : string -> option xval)
    (strptime_utc strptime_naive : string -> option Z)
    (loc : location) (w : world) (m : Z) (s : string) :
  w_fs w !! cache_filename loc = Some (mkFile m (Text s)) ->
  w_read_fault w (cache_filename loc) = None ->
  is_fresh xml_parse strptime_utc strptime_naive loc w = (Ok true, w) ->
  connect_read xml_parse strptime_utc strptime_naive loc w = (Ok (universal_newlines s), w).
Proof.
  intros Hf Hr Hfr.
  unfold connect_read, py_try, py_bind at 1, cache_exists, os_path_exists.
  rewrite Hf, bool_decide_eq_true_2 by eauto. cbn -[is_fresh].
  unfold py_bind at 1 2. rewrite Hfr. cbn -[is_fresh].
  unfold cache_load, py_bind, read_file. rewrite Hf, Hr. reflexivity.
Qed.

(** Without a cache file, or with one [is_fresh] judges stale, a 200
    reply is decoded, written to the cache file and returned as it came;
    a later [load] reads it back with universal newlines; the request is
    the only other effect. *)
Theorem connect_read_fetch (xml_parse : string -> option xval)
    (strptime_utc strptime_naive : string -> option Z)
    (loc : location) (w : world) (s : string) :
  (w_fs w !! cache_filename loc = None \/
   (is_Some (w_fs w !! cache_filename loc) /\
    is_fresh xml_parse strptime_utc strptime_naive loc w = (Ok false, w))) ->
  w_net w (loc_url loc) = Reply 200 (Text s) ->
  w_fault w (cache_filename loc) = NoFault ->
  w_read_fault w (cache_filename loc) = None ->
  exists w', connect_read xml_parse strptime_utc strptime_naive loc w = (Ok s, w') /\
             cache_load loc w' = (Ok (universal_newlines s), w') /\
             w_trace w' = w_trace w ++ [EvHttpGet (loc_url loc)].
Proof.
  intros Hstale Hnet Hf Hr.
  assert (Hu : urlopen (loc_url loc) w = (Ok (200, Text s), emit w (EvHttpGet (loc_url loc)))).
  { unfold urlopen. rewrite Hnet. rewrite bool_decide_eq_true_2 by lia. reflexivity. }
  assert (Hload : cache_load loc
      (set_fs (emit w (EvHttpGet (loc_url loc)))
         (<[cache_filename loc := mkFile (w_clock w) (Text s)]> (w_fs w))) =
      (Ok (universal_newlines s), set_fs (emit w (EvHttpGet (loc_url loc)))
         (<[cache_filename loc := mkFile (w_clock w) (Text s)]> (w_fs w)))).
  { unfold cache_load, py_bind, read_file. simpl. rewrite lookup_insert_eq. simpl.
    rewrite Hr. reflexivity. }
  unfold connect_read, py_try, py_bind at 1, cache_exists, os_path_exists.
  destruct Hstale as [Hn | [Hex Hfr]].
  - rewrite Hn. cbn -[urlopen].
    unfold py_bind. rewrite Hu. cbn -[cache_filename]. unfold cache_dump, open_write. cbn -[cache_filename]. rewrite Hf.
    eexists. split; [reflexivity|]. split; [exact Hload | reflexivity].
  - rewrite bool_decide_eq_true_2 by exact Hex. cbn -[urlopen is_fresh].
    unfold py_bind at 1 2. rewrite Hfr. cbn -[urlopen].
    unfold py_bind. rewrite Hu. cbn -[cache_filename]. unfold cache_dump, open_write. cbn -[cache_filename]. rewrite Hf.
    eexists. split; [reflexivity|]. split; [exact Hload | reflexivity].
Qed.

(** Without a cache file, or with one [is_fresh] judges stale, an
    unreachable service makes [read] raise [URLError]: a stale cache file
    is never returned instead. *)
Theorem connect_read_unreachable (xml_parse : string -> option xval)
    (strptime_utc strptime_naive : string -> option Z)
    (loc : location) (w : world) :
  (w_fs w !! cache_filename loc = None \/
   (is_Some (w_fs w !! cache_filename loc) /\
    is_fresh xml_parse strptime_utc strptime_naive loc w = (Ok false, w))) ->
  w_net w (loc_url loc) = Unreachable ->
  connect_read xml_parse strptime_utc strptime_naive loc w
  = (Err URLError, emit w (EvHttpGet (loc_url loc))).
Proof.
  intros Hstale Hnet.
  unfold connect_read, py_try, py_bind at 1, cache_exists, os_path_exists.
  destruct Hstale as [Hn | [Hex Hfr]].
  - rewrite Hn. cbn -[urlopen]. unfold py_bind, urlopen. rewrite Hnet. reflexivity.
  - rewrite bool_decide_eq_true_2 by exact Hex. cbn -[urlopen is_fresh].
    unfold py_bind at 1 2. rewrite Hfr. cbn -[urlopen].
    unfold py_bind, urlopen. rewrite Hnet. reflexivity.
Qed.

(** With a cache file present, an exception raised by [is_fresh] (a
    payload without the [nextrun] attribute, a [model] of another shape,
    a timestamp [strptime] rejects, ...) is raised by [read] unchanged:
    no refetch is attempted. *)
Theorem connect_read_is_fresh_error (xml_parse : string -> option xval)
    (strptime_utc strptime_naive : string -> option Z)
    (loc : location) (w w' : world) (e : exn) :
  is_Some (w_fs w !! cache_filename loc) ->
  is_fresh xml_parse strptime_utc strptime_naive loc w = (Err e, w') ->
  connect_read xml_parse strptime_utc strptime_naive loc w = (Err e, w').
Proof.
  intros Hex Hfr.
  unfold connect_read, py_try, py_bind at 1, cache_exists, os_path_exists.
  rewrite bool_decide_eq_true_2 by exact Hex. cbn -[is_fresh].
  unfold py_bind at 1 2. rewrite Hfr. reflexivity.
Qed.

(** ** Rows without the columns the scan reads *)

(** A row with no column (what [csv.reader] yields for a blank line)
    before the location's row, or a matching row without a second column,
    makes [parse_location_csv] raise [IndexError]. *)
Theorem parse_location_csv_short_rows (pre post : list (list string)) (name : string) :
  rows_before name pre ->
  parse_location_csv (pre ++ [] :: post) name = Err IndexError /\
  parse_location_csv (pre ++ [name] :: post) name = Err IndexError.
Proof.
  intros Hpre. unfold parse_location_csv. rewrite (find_row_stop _ _ _ _ Hpre).
  split; [|reflexivity].
  induction Hpre as [|row pre (c0 & tl & -> & Hne) _ IH]; simpl; [reflexivity|].
  apply String.eqb_neq in Hne. rewrite Hne. exact IH.
Qed.

(** ** Text after the altitude *)

Lemma strip_prefix_app (p r : string) : strip_prefix p (p ++ r)%string = Some r.
Proof. induction p as [|c p IH]; simpl; [reflexivity|]. now rewrite Ascii.eqb_refl. Qed.

(** The first character of [r], if any, is outside the class. *)
Definition starts_outside (cls : ascii -> bool) (r : string) : bool :=
  match r with String c _ => negb (cls c) | EmptyString => true end.

Lemma span_len_app (cls : ascii -> bool) (g r : string) :
  str_all cls g = true -> starts_outside cls r = true ->
  span_len cls (g ++ r)%string = String.length g.
Proof.
  intros Hg Hr. induction g as [|c g IH]; simpl.
  - destruct r as [|c r]; simpl in *; [reflexivity|].
    destruct (cls c); [discriminate|reflexivity].
  - cbn [str_all] in Hg. apply andb_true_iff in Hg as [Hc Hg]. rewrite Hc. f_equal. now apply IH.
Qed.

Lemma str_take_app (g r : string) : str_take (String.length g) (g ++ r)%string = g.
Proof. induction g as [|c g IH]; simpl; [reflexivity|]. now rewrite IH. Qed.

Lemma str_drop_app (g r : string) : str_drop (String.length g) (g ++ r)%string = r.
Proof. induction g as [|c g IH]; simpl; [reflexivity|]. exact IH. Qed.

(** A greedy group whose longest run is followed by a match of the rest
    of the pattern captures that run. *)
Lemma re_group_first (cls : ascii -> bool) (rest : string -> option (list string))
    (g r : string) (gs : list string) :
  g <> EmptyString -> str_all cls g = true -> starts_outside cls r = true ->
  rest r = Some gs ->
  re_group_try rest (g ++ r)%string (span_len cls (g ++ r)%string) = Some (g :: gs).
Proof.
  intros Hne Hg Hr Hrest. rewrite (span_len_app _ _ _ Hg Hr).
  destruct g as [|c g']; [contradiction|].
  cbn [String.length re_group_try].
  change (S (String.length g')) with (String.length (String c g')).
  rewrite str_drop_app, Hrest, str_take_app. reflexivity.
Qed.

Lemma coord_pattern_match (a b c rest : string) :
  digit_group a -> digit_group b -> digit_group c ->
  starts_outside is_digit_or_dot rest = true ->
  re_match coord_pattern ("lat=" ++ a ++ "&lon=" ++ b ++ "&altitude=" ++ c ++ rest)%string
  = Some [a; b; c].
Proof.
  intros [Na Da] [Nb Db] [Nc Dc] Hr. unfold coord_pattern.
  cbn [re_match]. rewrite strip_prefix_app.
  apply re_group_first; [exact Na | exact Da | reflexivity |].
  cbn [re_match]. rewrite strip_prefix_app.
  apply re_group_first; [exact Nb | exact Db | reflexivity |].
  cbn [re_match]. rewrite strip_prefix_app.
  apply re_group_first; [exact Nc | exact Dc | exact Hr | reflexivity].
Qed.

(** [re.match] anchors at the start only: whatever follows the altitude
    digits in the coordinate column, when it does not start with a digit
    or a dot, is ignored and the result is the one without it. *)
Theorem parse_location_csv_trailing_text (pre post : list (list string))
    (name a b c junk : string) (rest : list string) :
  rows_before name pre ->
  digit_group a -> digit_group b -> digit_group c ->
  starts_outside is_digit_or_dot junk = true ->
  parse_location_csv
    (pre ++ (name :: ("lat=" ++ a ++ "&lon=" ++ b ++ "&altitude=" ++ c ++ junk)%string
                  :: rest) :: post) name =
  parse_location_csv
    (pre ++ (name :: ("lat=" ++ a ++ "&lon=" ++ b ++ "&altitude=" ++ c)%string
                  :: rest) :: post) name.
Proof.
  intros Hpre Da Db Dc Hj. rewrite !(parse_location_csv_first _ _ _ _ _ Hpre).
  rewrite (coord_pattern_match _ _ _ _ Da Db Dc Hj).
  assert (E : ("lat=" ++ a ++ "&lon=" ++ b ++ "&altitude=" ++ c)%string =
              ("lat=" ++ a ++ "&lon=" ++ b ++ "&altitude=" ++ c ++ EmptyString)%string)
    by now rewrite str_append_nil.
  rewrite E, (coord_pattern_match a b c EmptyString Da Db Dc eq_refl). reflexivity.
Qed.

(** ** Only the candidate tables count *)

Lemma find_skip {A} (f : A -> bool) (l1 l2 l3 : list A) :
  List.find f l2 = None -> List.find f (l1 ++ l2 ++ l3) = List.find f (l1 ++ l3).
Proof.
  intros H2. induction l1 as [|x l1 IH]; simpl.
  - induction l2 as [|y l2 IH2]; simpl in *; [reflexivity|].
    destruct (f y); [discriminate|]. exact (IH2 H2).
  - destruct (f x); [reflexivity|exact IH].
Qed.

Lemma find_none {A} (f : A -> bool) (l : list A) :
  Forall (fun x => f x = false) l -> List.find f l = None.
Proof. induction 1 as [|x l Hx _ IH]; simpl; [reflexivity|]. now rewrite Hx. Qed.

Lemma scan_tables_ext (m m' : list (string * list (list string))) (name : string)
    (names : list string) :
  Forall (fun n => zip_member m n = zip_member m' n) names ->
  scan_tables m name names = scan_tables m' name names.
Proof.
  induction 1 as [|n names Hn _ IH]; simpl; [reflexivity|]. now rewrite Hn, IH.
Qed.

(** Archive members whose names do not end with [<country>.csv] play no
    part in the lookup: inserting them anywhere in the archive leaves the
    result of the scan unchanged. *)
Theorem search_archive_other_members (m1 extra m2 : list (string * list (list string)))
    (p : string) :
  Forall (fun m => str_endswith (split_first "/"%char (normalize p) ++ ".csv")%string
                                (fst m) = false) extra ->
  search_archive (m1 ++ extra ++ m2) p = search_archive (m1 ++ m2) p.
Proof.
  intros Hx. unfold search_archive, search_normalized. cbv zeta. fold (normalize p).
  set (suf := (split_first "/"%char (normalize p) ++ ".csv")%string) in *.
  assert (Hc : List.filter (str_endswith suf) (List.map fst (m1 ++ extra ++ m2)) =
               List.filter (str_endswith suf) (List.map fst (m1 ++ m2))).
  { rewrite !map_app, !List.filter_app.
    assert (E : List.filter (str_endswith suf) (List.map fst extra) = []).
    { induction Hx as [|x extra Hx _ IH]; simpl; [reflexivity|]. now rewrite Hx. }
    now rewrite E. }
  rewrite Hc.
  assert (Hz : Forall (fun n => zip_member (m1 ++ extra ++ m2) n = zip_member (m1 ++ m2) n)
                      (List.filter (str_endswith suf) (List.map fst (m1 ++ m2)))).
  { apply List.Forall_forall. intros n Hn.
    apply List.filter_In in Hn as [_ Hn].
    unfold zip_member. rewrite !rev_app_distr, <- app_assoc.
    rewrite find_skip; [reflexivity|].
    apply find_none. apply List.Forall_forall. intros x Hxin.
    apply List.in_rev in Hxin.
    rewrite List.Forall_forall in Hx. specialize (Hx x Hxin).
    destruct (String.eqb_spec (fst x) n) as [E|E]; [|reflexivity].
    rewrite E in Hx. congruence. }
  destruct (List.filter (str_endswith suf) (List.map fst (m1 ++ m2))); [reflexivity|].
  now rewrite (scan_tables_ext _ _ _ _ Hz).
Qed.

(** ** Shelf keys of positional and keyword calls *)

Lemma list_ascii_of_string_app (a b : string) :
  list_ascii_of_string (a ++ b)%string = list_ascii_of_string a ++ list_ascii_of_string b.
Proof. induction a as [|c a IH]; simpl; [reflexivity|]. now rewrite IH. Qed.

Lemma str_snoc2_inj (y1 y2 : string) (a b c d : ascii) :
  (y1 ++ String a (String b EmptyString))%string =
  (y2 ++ String c (String d EmptyString))%string -> a = c.
Proof.
  intros H. apply (f_equal list_ascii_of_string) in H.
  rewrite !list_ascii_of_string_app in H. simpl in H.
  change [a; b] with ([a] ++ [b]) in H. change [c; d] with ([c] ++ [d]) in H.
  rewrite !app_assoc in H.
  apply app_inj_tail in H as [H _]. apply app_inj_tail in H as [_ H]. exact H.
Qed.

Lemma concat_map_last {A} (f : A -> string) (sep : string) (x : A) (l : list A) :
  exists p z, String.concat sep (List.map f (x :: l)) = (p ++ f z)%string.
Proof.
  revert x. induction l as [|y l IH]; intros x.
  - exists EmptyString, x. reflexivity.
  - destruct (IH y) as (p & z & E). exists (f x ++ sep ++ p)%string, z.
    change (String.concat sep (List.map f (x :: y :: l)))
      with (f x ++ sep ++ String.concat sep (List.map f (y :: l)))%string.
    rewrite E. now rewrite !str_append_assoc.
Qed.

Lemma repr_str_last (s : string) :
  exists x q, repr_str s = (x ++ String q EmptyString)%string /\
              (q = "'"%char \/ q = dquote).
Proof.
  unfold repr_str.
  destruct (str_has "'"%char s && negb (str_has dquote s)).
  - exists (String dquote (str_concat_map (repr_char dquote) s)), dquote. auto.
  - exists (String "'"%char (str_concat_map (repr_char "'"%char) s)), "'"%char. auto.
Qed.

(** A call with no keyword argument and a call with keyword arguments
    never share a shelf key: [parse_zip_cached(url, path, name)] and
    [parse_zip_cached(url, path, location_name=name)] (the form
    [Location] uses) are memoised apart. *)
Theorem cache_key_keywords_apart (args args' : list string) (kv : string * string)
    (kwargs : list (string * string)) :
  cache_key args [] <> cache_key args' (kv :: kwargs).
Proof.
  intros H.
  assert (E1 : cache_key args [] =
               (repr_args args ++ String "{"%char (String "}"%char EmptyString))%string)
    by reflexivity.
  assert (E0 : cache_key args' (kv :: kwargs) =
    (repr_args args' ++ "{" ++
     String.concat ", " (List.map (fun kv => repr_str (fst kv) ++ ": " ++ repr_str (snd kv))
                                  (kv :: kwargs)) ++ "}")%string) by reflexivity.
  rewrite E1, E0 in H.
  destruct (concat_map_last (fun kv => repr_str (fst kv) ++ ": " ++ repr_str (snd kv))%string
              ", " kv kwargs) as (p & z & Ep).
  rewrite Ep in H.
  destruct (repr_str_last (snd z)) as (x & q & Eq & Hq). rewrite Eq in H.
  assert (E2 : (repr_args args' ++ "{" ++ (p ++ repr_str (fst z) ++ ": " ++ x ++
                  String q EmptyString) ++ "}")%string =
               ((repr_args args' ++ "{" ++ p ++ repr_str (fst z) ++ ": " ++ x) ++
                  String q (String "}"%char EmptyString))%string).
  { rewrite !str_append_assoc. reflexivity. }
  rewrite E2 in H. symmetry in H. apply str_snoc2_inj in H.
  destruct Hq as [-> | ->]; discriminate.
Qed.

(** ** Locations and their cache files *)

Lemma str_app_inj_l (p x y : string) : (p ++ x)%string = (p ++ y)%string -> x = y.
Proof. induction p as [|c p IH]; simpl; [auto|]. intros H. injection H as H. auto. Qed.

Lemma str_app_inj_r (x y s : string) : (x ++ s)%string = (y ++ s)%string -> x = y.
Proof.
  intros H. apply (f_equal list_ascii_of_string) in H.
  rewrite !list_ascii_of_string_app in H. apply app_inv_tail in H.
  rewrite <- (string_of_list_ascii_of_string x), <- (string_of_list_ascii_of_string y).
  now rewrite H.
Qed.

(** Splitting a string at its first occurrence of [c]. *)
Lemma char_split (c : ascii) (x y x' y' : string) :
  str_has c x = false -> str_has c x' = false ->
  (x ++ String c y)%string = (x' ++ String c y')%string -> x = x' /\ y = y'.
Proof.
  revert x'. induction x as [|d x IH]; intros [|d' x']; simpl.
  - intros _ _ H. injection H as ->. auto.
  - intros _ H2 H. injection H as <- _. rewrite Ascii.eqb_refl in H2. discriminate.
  - intros H1 _ H. injection H as -> _. rewrite Ascii.eqb_refl in H1. discriminate.
  - intros H1 H2 H. apply orb_false_iff in H1 as [_ H1]. apply orb_false_iff in H2 as [_ H2].
    injection H as <- H. destruct (IH x' H1 H2 H) as [-> ->]. auto.
Qed.

(** Two [API_Locationforecast] objects share a cache file only when their
    latitudes and their longitudes are written alike ([str] of a float
    has no [';']): distinct coordinates never read each other's cache. *)
Theorem api_cache_files_apart (float_str : Q -> string) (la lo la' lo' : Q) :
  (forall x, str_has ";"%char (float_str x) = false) ->
  cache_filename (API_Locationforecast float_str la lo) =
  cache_filename (API_Locationforecast float_str la' lo') ->
  float_str la = float_str la' /\ float_str lo = float_str lo'.
Proof.
  intros Hs H. unfold cache_filename, API_Locationforecast, api_init in H.
  cbn [loc_hash] in H.
  apply str_app_inj_l, str_app_inj_l, str_app_inj_r, str_app_inj_r in H.
  apply str_app_inj_l in H.
  apply (char_split ";"%char _ _ _ _ (Hs la) (Hs la')) in H as [Ha H].
  split; [exact Ha|]. exact (str_app_inj_l "lon=" _ _ H).
Qed.

Lemma Location_some (float_str : Q -> string) (json_load : string -> option (gmap string string))
    (script_directory : string) (d : gmap string string) (name f : string) (w : world) :
  Location float_str json_load script_directory (Some d) name f w =
  match resolve_link d f with
  | Err e => (Err e, w)
  | Ok fl =>
      match dict_get d "location_zip_url" with
      | Err e => (Err e, w)
      | Ok u =>
          (v <- parse_zip_cached
                  [u; (tempdir ++ "/" ++ List.last (py_split "/"%char u) EmptyString)%string]
                  [("location_name", name)] ;;
           py_ret (api_init float_str fl (lat v) (lon v))) w
      end
  end.
Proof.
  unfold Location, resolve_link. unfold py_bind at 1, py_ret at 1.
  destruct (existsb _ _); [destruct (dict_get d f)|]; [destruct (dict_get d "location_zip_url")| |destruct (dict_get d "location_zip_url")]; reflexivity.
Qed.

(** Two [Location]s made one after the other with the same name and
    language: the second takes its coordinates from the shelf and changes
    nothing (no request, no archive opened); both request the same URL;
    each keeps the language's word for ['forecast'] or
    ['forecast_hour_by_hour'], and the untranslated ['forecast'] for any
    other link; they share a cache file exactly when these links agree. *)
Theorem location_forecast_links (float_str : Q -> string)
    (json_load : string -> option (gmap string string)) (script_directory : string)
    (d : gmap string string) (name f1 f2 : string) (w w1 w2 : world) (l1 l2 : location) :
  Location float_str json_load script_directory (Some d) name f1 w = (Ok l1, w1) ->
  Location float_str json_load script_directory (Some d) name f2 w1 = (Ok l2, w2) ->
  w2 = w1 /\ loc_url l1 = loc_url l2 /\
  resolve_link d f1 = Ok (loc_forecast_link l1) /\
  resolve_link d f2 = Ok (loc_forecast_link l2) /\
  (cache_filename l1 = cache_filename l2 <-> loc_forecast_link l1 = loc_forecast_link l2).
Proof.
  rewrite !Location_some. intros H1 H2.
  destruct (resolve_link d f1) as [fl1|e] eqn:R1; [|discriminate].
  destruct (dict_get d "location_zip_url") as [u|e] eqn:U; [|discriminate].
  destruct (resolve_link d f2) as [fl2|e] eqn:R2; [|discriminate].
  unfold py_bind at 1 in H1.
  destruct (parse_zip_cached _ _ w) as [[v|e] w'] eqn:P; [|discriminate].
  injection H1 as <- <-.
  destruct (shelve_cache_memo _ _ _ _ _ _ P) as [_ P'].
  unfold py_bind in H2. unfold parse_zip_cached in H2. rewrite P' in H2.
  injection H2 as <- <-.
  split; [reflexivity|]. split; [reflexivity|]. split; [reflexivity|]. split; [reflexivity|].
  unfold cache_filename, api_init. cbn [loc_hash loc_forecast_link]. split.
  - intros H. apply str_app_inj_l, str_app_inj_l, str_app_inj_r in H.
    apply str_app_inj_l in H. apply (str_app_inj_l ".") in H. exact H.
  - intros ->. reflexivity.
Qed.

(** ** The archive path of a Location *)

Lemma py_split_nosep (sep : ascii) (s : string) :
  str_has sep s = false -> py_split sep s = [s].
Proof.
  induction s as [|c s IH]; simpl; [reflexivity|].
  intros H. apply orb_false_iff in H as [Hc Hs].
  rewrite Ascii.eqb_sym, Hc, (IH Hs). reflexivity.
Qed.

Lemma py_split_last (sep : ascii) (pre seg : string) :
  str_has sep seg = false ->
  exists x l, py_split sep (pre ++ String sep seg)%string = x :: l ++ [seg].
Proof.
  intros Hseg. induction pre as [|c pre IH]; simpl.
  - rewrite Ascii.eqb_refl, (py_split_nosep _ _ Hseg). exists EmptyString, []. reflexivity.
  - destruct IH as (x & l & E). rewrite E.
    destruct (Ascii.eqb c sep).
    + exists EmptyString, (x :: l). reflexivity.
    + exists (String c x), l. reflexivity.
Qed.

(** [Location] stores the archive named by the language's
    [location_zip_url] at [/tmp/<last path segment of the url>], looks the
    name up through the memoised [parse_zip_cached] with [location_name]
    passed by keyword, and builds the coordinate location from the
    latitude and longitude found (the altitude is not used). *)
Theorem location_zip_cache_path (float_str : Q -> string)
    (json_load : string -> option (gmap string string)) (script_directory : string)
    (d : gmap string string) (name f fl pre seg : string) (w : world) :
  d !! "location_zip_url" = Some (pre ++ "/" ++ seg)%string ->
  str_has "/"%char seg = false ->
  resolve_link d f = Ok fl ->
  Location float_str json_load script_directory (Some d) name f w =
  (v <- parse_zip_cached [(pre ++ "/" ++ seg)%string; ("/tmp/" ++ seg)%string]
          [("location_name", name)] ;;
   py_ret (api_init float_str fl (lat v) (lon v))) w.
Proof.
  intros Hu Hseg Hr. rewrite Location_some, Hr. unfold dict_get. rewrite Hu.
  change ("/" ++ seg)%string with (String "/"%char seg).
  destruct (py_split_last "/"%char pre seg Hseg) as (x & l & E). rewrite E.
  change (x :: l ++ [seg]) with ((x :: l) ++ [seg]). rewrite List.last_last.
  reflexivity.
Qed.

(** A language dictionary naming a valid forecast link without its
    translation, or without [location_zip_url], makes [Location] raise
    [KeyError] before any download or archive lookup. *)
Theorem location_missing_keys (float_str : Q -> string)
    (json_load : string -> option (gmap string string)) (script_directory : string)
    (d : gmap string string) (name f : string) (w : world) :
  (existsb (String.eqb f) forecast_links = true -> d !! f = None ->
   Location float_str json_load script_directory (Some d) name f w = (Err KeyError, w)) /\
  (d !! "location_zip_url" = None ->
   Location float_str json_load script_directory (Some d) name f w = (Err KeyError, w)).
Proof.
  rewrite Location_some. unfold resolve_link, dict_get. split.
  - intros Hf Hd. rewrite Hf, Hd. reflexivity.
  - intros Hz. rewrite Hz.
    destruct (existsb _ _); [destruct (d !! f)|]; reflexivity.
Qed.

(** ** Language *)


(** Without a [Language] object, [Location] loads the English one first:
    when that file is missing it raises [FileNotFoundError] and changes
    nothing (no download, no shelf entry). *)
Theorem location_without_language_file (float_str : Q -> string)
    (json_load : string -> option (gmap string string)) (script_directory : string)
    (name f : string) (w : world) :
  w_fs w !! language_filename script_directory "en" = None ->
  Location float_str json_load script_directory None name f w = (Err FileNotFoundError, w).
Proof.
  intros Hn. unfold Location, py_bind at 1, Language, get_dictionary, py_try, py_bind, read_file.
  rewrite Hn. reflexivity.
Qed.

(** ** Instances of the properties above *)

Lemma parse_zip_cached_error_not_stored_witness :
  exists w', parse_zip_cached [zip_url; zip_path]
               [("location_name", "Narnia/Cair_Paravel/Cair_Paravel")] w_cached
             = (Err (APIError NoCountryFile), w') /\
    (w_shelf w_cached !! cache_key [zip_url; zip_path]
       [("location_name", "Narnia/Cair_Paravel/Cair_Paravel")] = None /\
     w_shelf w' = w_shelf w_cached).
Proof.
  set (r := parse_zip_cached [zip_url; zip_path]
              [("location_name", "Narnia/Cair_Paravel/Cair_Paravel")] w_cached).
  assert (E : r = (Err (APIError NoCountryFile), snd r)) by (vm_compute; reflexivity).
  exists (snd r). split; [exact E|].
  exact (parse_zip_cached_error_not_stored _ _ _ _ _ E).
Defined.

(** Nothing cached yet; the archive server answers. *)
Definition w_first_run : world :=
  mkWorld ∅ (fun _ => NoFault) (fun _ => None) (fun _ => None) (fun _ => Reply 200 prague_archive) 0 (fun _ => 0) ∅ [].

Lemma get_zip_cached_download_witness :
  exists w', get_zip_cached zip_url zip_path 30 w_first_run = (Ok zip_path, w') /\
             w_fs w' = <[zip_path := mkFile (w_clock w_first_run) prague_archive]> (w_fs w_first_run) /\
             w_trace w' = w_trace w_first_run ++ [EvHttpGet zip_url] /\
             w_shelf w' = w_shelf w_first_run.
Proof.
  apply (get_zip_cached_download w_first_run zip_url zip_path 30 prague_archive);
    [left; reflexivity | reflexivity | reflexivity].
Defined.

Lemma get_zip_cached_download_fails_witness :
  get_zip_cached zip_url zip_path 30 (fetch_world 404) =
  (Err (match w_net (fetch_world 404) zip_url with
        | Unreachable => URLError
        | Reply st _ => if bool_decide (200 <= st < 300) then APIError BadStatus
                        else HTTPError st
        end), emit (fetch_world 404) (EvHttpGet zip_url)).
Proof.
  apply (get_zip_cached_download_fails (fetch_world 404) zip_url zip_path 30).
  - left. reflexivity.
  - intros body. discriminate.
Defined.

Lemma cache_dump_load_witness :
  exists w', cache_dump ny_loc ny_payload (fetch_world 200) = (Ok tt, w') /\
             cache_load ny_loc w' = (Ok (universal_newlines ny_payload), w') /\
             (str_has "013"%char ny_payload = false -> cache_load ny_loc w' = (Ok ny_payload, w')) /\
             cache_exists ny_loc w' = (Ok true, w').
Proof. apply (cache_dump_load ny_loc (fetch_world 200) ny_payload); reflexivity. Defined.

(** A cache file that [os.remove] refuses to delete. *)
Definition w_locked_cache : world :=
  mkWorld (<[cache_filename ny_loc := mkFile 0 (Text ny_payload)]> ∅) (fun _ => NoFault)
    (fun _ => None) (fun _ => Some PermissionError) (fun _ => Unreachable)
    (1793513400 * 1000000) ny_offset ∅ [].

Lemma cache_remove_spec_witness :
  (exists w', cache_remove ny_loc (fetch_world 200) = (Ok tt, w') /\
              w_fs w' = delete (cache_filename ny_loc) (w_fs (fetch_world 200)) /\
              cache_exists ny_loc w' = (Ok false, w')) /\
  cache_remove ny_loc w_locked_cache = (Err PermissionError, w_locked_cache).
Proof.
  split.
  - apply (proj1 (cache_remove_spec ny_loc (fetch_world 200))). left. reflexivity.
  - apply (proj2 (cache_remove_spec ny_loc w_locked_cache)).
    + exists (mkFile 0 (Text ny_payload)). vm_compute. reflexivity.
    + reflexivity.
Defined.

Lemma connect_read_fresh_hit_witness :
  connect_read ny_xml_parse ny_strptime ny_strptime ny_loc (ny_world (1793511000 * 1000000))
  = (Ok (universal_newlines ny_payload), ny_world (1793511000 * 1000000)).
Proof.
  apply (connect_read_fresh_hit ny_xml_parse ny_strptime ny_strptime ny_loc
           (ny_world (1793511000 * 1000000)) 0 ny_payload).
  - vm_compute. reflexivity.
  - reflexivity.
  - reflexivity.
Defined.

Lemma connect_read_fetch_witness :
  exists w', connect_read ny_xml_parse ny_strptime ny_strptime ny_loc (fetch_world 200)
             = (Ok EmptyString, w') /\
             cache_load ny_loc w' = (Ok (universal_newlines EmptyString), w') /\
             w_trace w' = w_trace (fetch_world 200) ++ [EvHttpGet (loc_url ny_loc)].
Proof.
  apply (connect_read_fetch ny_xml_parse ny_strptime ny_strptime ny_loc (fetch_world 200)
           EmptyString).
  - left. reflexivity.
  - reflexivity.
  - reflexivity.
  - reflexivity.
Defined.

Lemma connect_read_unreachable_witness :
  connect_read ny_xml_parse ny_strptime ny_strptime ny_loc (ny_world (1793520000 * 1000000))
  = (Err URLError, emit (ny_world (1793520000 * 1000000)) (EvHttpGet (loc_url ny_loc))).
Proof.
  apply (connect_read_unreachable ny_xml_parse ny_strptime ny_strptime ny_loc
           (ny_world (1793520000 * 1000000))).
  - right. split; [vm_compute; eauto | reflexivity].
  - reflexivity.
Defined.

Lemma connect_read_is_fresh_error_witness :
  connect_read odd_xml_parse ny_strptime ny_strptime ny_loc (payload_world odd_payload)
  = (Err TypeError, payload_world odd_payload).
Proof.
  apply (connect_read_is_fresh_error odd_xml_parse ny_strptime ny_strptime ny_loc
           (payload_world odd_payload) (payload_world odd_payload) TypeError).
  - vm_compute. eauto.
  - reflexivity.
Defined.

Lemma parse_location_csv_short_rows_witness :
  parse_location_csv ([] ++ [] :: [["norge/oslo/oslo"; "lat=59.9&lon=10.7&altitude=3"]])
    "norge/oslo/oslo" = Err IndexError /\
  parse_location_csv ([] ++ ["norge/oslo/oslo"] :: [["norge/oslo/oslo"; "lat=59.9&lon=10.7&altitude=3"]])
    "norge/oslo/oslo" = Err IndexError.
Proof. apply parse_location_csv_short_rows. constructor. Defined.

Lemma parse_location_csv_trailing_text_witness :
  parse_location_csv
    ([] ++ ("norge/oslo/oslo" :: ("lat=" ++ "59.9" ++ "&lon=" ++ "10.7" ++ "&altitude=" ++ "3"
                                  ++ "m")%string :: []) :: [])
    "norge/oslo/oslo" =
  parse_location_csv
    ([] ++ ("norge/oslo/oslo" :: ("lat=" ++ "59.9" ++ "&lon=" ++ "10.7" ++ "&altitude=" ++ "3")%string
                              :: []) :: [])
    "norge/oslo/oslo".
Proof.
  apply parse_location_csv_trailing_text.
  - constructor.
  - split; [discriminate | reflexivity].
  - split; [discriminate | reflexivity].
  - split; [discriminate | reflexivity].
  - reflexivity.
Defined.

Lemma search_archive_other_members_witness :
  search_archive (prague_members ++ [("English/README.txt", [])] ++ [])
    "Czech_Republic/Prague/Prague" =
  search_archive (prague_members ++ []) "Czech_Republic/Prague/Prague".
Proof.
  apply search_archive_other_members. constructor; [vm_compute; reflexivity | constructor].
Defined.

(** [str] of the two coordinates of Prague. *)
Definition prague_float_str (q : Q) : string :=
  if Qeq_bool q 50.08804 then "50.08804"
  else if Qeq_bool q 14.42076 then "14.42076" else "0.0".

Lemma api_cache_files_apart_witness :
  (forall x, str_has ";"%char (prague_float_str x) = false) /\
  cache_filename (API_Locationforecast prague_float_str 50.08804 14.42076) =
  cache_filename (API_Locationforecast prague_float_str (5008804 # 100000) 14.42076) /\
  prague_float_str 50.08804 = prague_float_str (5008804 # 100000) /\
  prague_float_str 14.42076 = prague_float_str 14.42076.
Proof.
  assert (Hs : forall x, str_has ";"%char (prague_float_str x) = false).
  { intros x. unfold prague_float_str.
    destruct (Qeq_bool x 50.08804); [reflexivity|].
    destruct (Qeq_bool x 14.42076); reflexivity. }
  assert (Hc : cache_filename (API_Locationforecast prague_float_str 50.08804 14.42076) =
               cache_filename (API_Locationforecast prague_float_str (5008804 # 100000) 14.42076))
    by reflexivity.
  split; [exact Hs|]. split; [exact Hc|].
  exact (api_cache_files_apart prague_float_str _ _ _ _ Hs Hc).
Defined.

(** The English dictionary, as far as [Location] reads it. *)
Definition en_dictionary : gmap string string :=
  <["forecast" := "forecast"]> (<["forecast_hour_by_hour" := "forecast_hour_by_hour"]>
    (<["location_zip_url" := zip_url]> ∅)).

Definition no_json (s : string) : option (gmap string string) := None.

Definition yr_directory : string := "/usr/lib/python3/site-packages/yr".

Definition prague_name : string := "Czech_Republic/Prague/Prague".

Lemma location_forecast_links_witness :
  exists w1 w2 l1 l2,
    Location prague_float_str no_json yr_directory (Some en_dictionary) prague_name
      "forecast" w_cached = (Ok l1, w1) /\
    Location prague_float_str no_json yr_directory (Some en_dictionary) prague_name
      "forecast_hour_by_hour" w1 = (Ok l2, w2) /\
    (w2 = w1 /\ loc_url l1 = loc_url l2 /\
     resolve_link en_dictionary "forecast" = Ok (loc_forecast_link l1) /\
     resolve_link en_dictionary "forecast_hour_by_hour" = Ok (loc_forecast_link l2) /\
     (cache_filename l1 = cache_filename l2 <-> loc_forecast_link l1 = loc_forecast_link l2)).
Proof.
  set (r1 := Location prague_float_str no_json yr_directory (Some en_dictionary) prague_name
               "forecast" w_cached).
  assert (E1 : r1 = (Ok (api_init prague_float_str "forecast" 50.08804 14.42076), snd r1))
    by (vm_compute; reflexivity).
  set (r2 := Location prague_float_str no_json yr_directory (Some en_dictionary) prague_name
               "forecast_hour_by_hour" (snd r1)).
  assert (E2 : r2 = (Ok (api_init prague_float_str "forecast_hour_by_hour" 50.08804 14.42076),
                     snd r2))
    by (vm_compute; reflexivity).
  exists (snd r1), (snd r2), (api_init prague_float_str "forecast" 50.08804 14.42076),
    (api_init prague_float_str "forecast_hour_by_hour" 50.08804 14.42076).
  split; [exact E1|]. split; [exact E2|].
  exact (location_forecast_links prague_float_str no_json yr_directory en_dictionary prague_name
           "forecast" "forecast_hour_by_hour" w_cached (snd r1) (snd r2)
           (api_init prague_float_str "forecast" 50.08804 14.42076)
           (api_init prague_float_str "forecast_hour_by_hour" 50.08804 14.42076) E1 E2).
Defined.

Lemma location_zip_cache_path_witness :
  Location prague_float_str no_json yr_directory (Some en_dictionary) prague_name
    "forecast" w_cached =
  (v <- parse_zip_cached [("https://www.yr.no/storage/lookup" ++ "/" ++ "English.csv.zip")%string;
                          ("/tmp/" ++ "English.csv.zip")%string]
          [("location_name", prague_name)] ;;
   py_ret (api_init prague_float_str "forecast" (lat v) (lon v))) w_cached.
Proof.
  apply location_zip_cache_path.
  - reflexivity.
  - reflexivity.
  - reflexivity.
Defined.

Lemma location_missing_keys_witness :
  Location prague_float_str no_json yr_directory
    (Some (<["location_zip_url" := zip_url]> ∅)) prague_name "forecast" w_cached
  = (Err KeyError, w_cached) /\
  Location prague_float_str no_json yr_directory
    (Some (<["forecast" := "forecast"]> ∅)) prague_name "forecast" w_cached
  = (Err KeyError, w_cached).
Proof.
  split.
  - apply (proj1 (location_missing_keys prague_float_str no_json yr_directory
                    (<["location_zip_url" := zip_url]> ∅) prague_name "forecast" w_cached));
      reflexivity.
  - apply (proj2 (location_missing_keys prague_float_str no_json yr_directory
                    (<["forecast" := "forecast"]> ∅) prague_name "forecast" w_cached)).
    reflexivity.
Defined.

Lemma location_without_language_file_witness :
  Location prague_float_str no_json yr_directory None prague_name "forecast" w_cached
  = (Err FileNotFoundError, w_cached).
Proof. apply location_without_language_file. vm_compute. reflexivity. Defined.
